(** * preprocess_snli.py: the SNLI preprocessing script

    A shallow embedding of [scripts/preprocess_snli.py].  The script is glue
    code: it scans a directory listing for three file names, drives one
    [Preprocessor] instance of [esim.data] through a fixed sequence of calls
    and pickles what the calls return.  The pure parts (file-name matching,
    path joining, the selection loop) are Rocq functions; everything that
    leaves the script (the file system, the console, the [Preprocessor],
    [argparse], [json]) is a call answered by an arbitrary environment, and a
    run records the calls it makes in a trace.

    Paths follow [posixpath]; [fnmatch] is the POSIX one ([os.path.normcase]
    is the identity). *)

From Stdlib Require Import String Ascii List Bool Arith Lia ZArith Permutation FinFun.
Import ListNotations.
Local Open Scope string_scope.
Local Open Scope list_scope.

Set Implicit Arguments.
Set Warnings "-register-all".

(** ** Strings as character lists *)

Definition chars (s : string) : list ascii := list_ascii_of_string s.
Definition str (l : list ascii) : string := string_of_list_ascii l.

(** ** fnmatch

    [fnmatch.fnmatch(name, pat)] normalises the case of both arguments (a
    no-op on POSIX) and matches the whole name against the shell pattern:
    [*] stands for any run of characters, [?] for one character, any other
    character for itself.  Bracket classes do not occur in the patterns of
    the script and are not modelled. *)

Fixpoint glob (pat name : list ascii) {struct pat} : bool :=
  match pat with
  | [] => match name with [] => true | _ :: _ => false end
  | c :: pat' =>
      if Ascii.eqb c "*" then
        (fix star (n : list ascii) : bool :=
           glob pat' n ||
           match n with [] => false | _ :: n' => star n' end) name
      else if Ascii.eqb c "?" then
        match name with [] => false | _ :: n' => glob pat' n' end
      else
        match name with
        | [] => false
        | d :: n' => Ascii.eqb c d && glob pat' n'
        end
  end.

Definition fnmatch (name pat : string) : bool := glob (chars pat) (chars name).

(** ** os.path.join, for the two-argument calls of the script

    [posixpath.join(a, b)]: an absolute [b] replaces [a]; otherwise [b] is
    appended, after a separator unless [a] is empty or already ends in one. *)

Definition startswith (p s : string) : bool := String.prefix p s.

Definition endswith (s suf : string) : bool :=
  let n := String.length s in
  let k := String.length suf in
  Nat.leb k n && String.eqb (String.substring (n - k) k s) suf.

Definition path_join (a b : string) : string :=
  if startswith "/" b then b
  else if String.eqb a "" || endswith a "/" then (a ++ b)%string
  else (a ++ "/" ++ b)%string.

(** ** The selection loop (lines 59-68)

    Three variables start empty; every entry of the listing is tested
    against the three patterns in an if/elif chain. *)

Record Files : Type := mkFiles
  { train_file : string; dev_file : string; test_file : string }.

Definition no_files : Files := mkFiles "" "" "".

Definition scan_step (st : Files) (file : string) : Files :=
  if fnmatch file "*_train.txt" then
    mkFiles file (dev_file st) (test_file st)
  else if fnmatch file "*_dev.txt" then
    mkFiles (train_file st) file (test_file st)
  else if fnmatch file "*_test.txt" then
    mkFiles (train_file st) (dev_file st) file
  else st.

Definition select_files (listing : list string) : Files :=
  fold_left scan_step listing no_files.

(** ** os.path.normpath (posixpath) *)

Fixpoint split_on (sep : ascii) (l : list ascii) : list (list ascii) :=
  match l with
  | [] => [[]]
  | c :: l' =>
      if Ascii.eqb c sep then [] :: split_on sep l'
      else match split_on sep l' with
           | [] => [[c]]
           | w :: ws => (c :: w) :: ws
           end
  end.

Definition split (s sep : string) : list string :=
  match chars sep with
  | [c] => map str (split_on c (chars s))
  | _ => [s]
  end.

(** [new_comps] is kept with its last element first. *)
Definition norm_step (initial_slashes : nat) (new_comps : list string)
    (comp : string) : list string :=
  if String.eqb comp "" || String.eqb comp "." then new_comps
  else if negb (String.eqb comp "..")
          || (Nat.eqb initial_slashes 0 && match new_comps with [] => true | _ => false end)
          || match new_comps with top :: _ => String.eqb top ".." | [] => false end
       then comp :: new_comps
       else match new_comps with _ :: rest => rest | [] => [] end.

Fixpoint repeat_str (n : nat) (s : string) : string :=
  match n with O => "" | S n' => (s ++ repeat_str n' s)%string end.

Definition normpath (path : string) : string :=
  if String.eqb path "" then "."
  else
    let initial_slashes :=
      if startswith "/" path then
        if startswith "//" path && negb (startswith "///" path) then 2 else 1
      else 0 in
    let comps := rev (fold_left (norm_step initial_slashes) (split path "/") []) in
    let joined := String.concat "/" comps in
    let path' := (repeat_str initial_slashes "/" ++ joined)%string in
    if String.eqb path' "" then "." else path'.

(** ** Values read from the JSON configuration *)

Inductive PyVal : Type :=
| PyNone
| PyBool (b : bool)
| PyInt (z : Z)
| PyFloat (literal : string)
| PyStr (s : string)
| PyList (l : list PyVal)
| PyDict (items : list (string * PyVal)).

(** The keyword arguments handed on to [Preprocessor(...)], with the
    defaults of the signature of [preprocess_SNLI_data]. *)
Record Kwargs : Type := mkKwargs
  { lowercase : PyVal; ignore_punctuation : PyVal; num_words : PyVal;
    stopwords : PyVal; labeldict : PyVal; bos : PyVal; eos : PyVal }.

Definition default_kwargs : Kwargs :=
  mkKwargs (PyBool false) (PyBool false) PyNone (PyList []) (PyDict []) PyNone PyNone.

(** ** argparse: what the script builds (lines 127-130)

    [ArgumentParser(description=...)] is called without [add_help], whose
    default [True] registers the help action under [-h] and [--help];
    [add_argument] appends one more action. *)

Inductive ActionKind : Type := StoreAction | HelpAction.

Record Action : Type := mkAction
  { option_strings : list string;
    dest : string;
    default : option string;
    help : string;
    action : ActionKind }.

Record ArgumentParser : Type := mkParser
  { description : string; actions : list Action }.

Definition help_action : Action :=
  mkAction ["-h"; "--help"] "help" None "show this help message and exit" HelpAction.

Definition new_ArgumentParser (description : string) : ArgumentParser :=
  mkParser description [help_action].

Fixpoint lstrip (c : ascii) (l : list ascii) : list ascii :=
  match l with
  | d :: l' => if Ascii.eqb c d then lstrip c l' else l
  | [] => []
  end.

Definition add_argument (p : ArgumentParser) (flag default help : string)
  : ArgumentParser :=
  mkParser (description p)
    (actions p ++ [mkAction [flag] (str (lstrip "-" (chars flag))) (Some default)
                     help StoreAction]).

Definition parser : ArgumentParser :=
  add_argument (new_ArgumentParser "Preprocess an NLI dataset")
    "--config" "../config/preprocessing.json"
    "Path to a configuration file for preprocessing".

(** The options of a parser, and the actions added after the built-in help. *)
Definition parser_options (p : ArgumentParser) : list string :=
  flat_map option_strings (actions p).

Definition is_positional (a : Action) : bool :=
  negb (forallb (fun o => startswith "-" o) (option_strings a))
  || match option_strings a with [] => true | _ => false end.

Record Namespace : Type := mkNamespace { config : string }.

(** ** The collaborators

    [Obj] stands for references to the Python objects the collaborators hand
    back (the data read, its transformed form, the word dictionary, the
    embedding matrix); [Err] for the exceptions they raise.  A file object
    is identified with the path it was opened on. *)

Section Interface.

Variables Obj Err : Type.

Inductive Call : Type :=
| OsPathExists (path : string)
| OsMakedirs (path : string)
| OsListdir (path : string)
| Print (args : list string)
| NewPreprocessor (kw : Kwargs)
| ReadData (path : string)
| BuildWorddict (data : Obj)
| TransformToIndices (data : Obj)
| BuildEmbeddingMatrix (embeddings_file : string)
| Open (path mode : string)
| PickleDump (obj : Obj) (path : string)
| Close (path : string)
| ParseArgs (p : ArgumentParser)
| JsonLoad (path : string).

(** What a call that returns hands back. *)
Definition Resp (c : Call) : Type :=
  match c with
  | OsPathExists _ => bool
  | OsListdir _ => list string
  | ReadData _ | TransformToIndices _ | BuildEmbeddingMatrix _ => Obj
  | ParseArgs _ => Namespace
  | JsonLoad _ => PyVal
  | _ => unit
  end.

(** Exceptions: those of the collaborators, and the two that the
    subscripts and [normpath] calls of the entry point can raise. *)
Inductive Exn : Type :=
| KeyError (key : string)
| TypeError
| LibError (e : Err).

Inductive Ret : Type :=
| RNone
| RBool (b : bool)
| RNames (l : list string)
| RObj (o : Obj)
| RArgs (ns : Namespace)
| RJson (v : PyVal).

Inductive Outcome : Type :=
| Returned (r : Ret)
| Threw (e : Err).

Definition to_ret (c : Call) : Resp c -> Ret :=
  match c return Resp c -> Ret with
  | OsPathExists _ => RBool
  | OsListdir _ => RNames
  | ReadData _ | TransformToIndices _ | BuildEmbeddingMatrix _ => RObj
  | ParseArgs _ => RArgs
  | JsonLoad _ => RJson
  | _ => fun _ => RNone
  end.

Definition outcome (c : Call) (r : Err + Resp c) : Outcome :=
  match r with
  | inl e => Threw e
  | inr x => Returned (to_ret c x)
  end.

(** Which calls are methods (or the constructor) of [Preprocessor], and
    which write: [os.makedirs], [open] for writing, [pickle.dump]. *)
Definition is_preprocessor_call (c : Call) : bool :=
  match c with
  | NewPreprocessor _ | ReadData _ | BuildWorddict _
  | TransformToIndices _ | BuildEmbeddingMatrix _ => true
  | _ => false
  end.

Definition is_read_data (c : Call) : bool :=
  match c with ReadData _ => true | _ => false end.
Definition is_transform_to_indices (c : Call) : bool :=
  match c with TransformToIndices _ => true | _ => false end.
Definition is_build_worddict (c : Call) : bool :=
  match c with BuildWorddict _ => true | _ => false end.
Definition is_build_embedding_matrix (c : Call) : bool :=
  match c with BuildEmbeddingMatrix _ => true | _ => false end.
Definition is_pickle_dump (c : Call) : bool :=
  match c with PickleDump _ _ => true | _ => false end.

Definition written_path (c : Call) : option string :=
  match c with
  | Open p m => if String.eqb m "wb" then Some p else None
  | PickleDump _ p => Some p
  | _ => None
  end.

(** The Python name of the function behind a call. *)
Definition call_name (c : Call) : string :=
  match c with
  | OsPathExists _ => "os.path.exists"
  | OsMakedirs _ => "os.makedirs"
  | OsListdir _ => "os.listdir"
  | Print _ => "print"
  | NewPreprocessor _ => "Preprocessor"
  | ReadData _ => "Preprocessor.read_data"
  | BuildWorddict _ => "Preprocessor.build_worddict"
  | TransformToIndices _ => "Preprocessor.transform_to_indices"
  | BuildEmbeddingMatrix _ => "Preprocessor.build_embedding_matrix"
  | Open _ _ => "open"
  | PickleDump _ _ => "pickle.dump"
  | Close _ => "file.close"
  | ParseArgs _ => "ArgumentParser.parse_args"
  | JsonLoad _ => "json.load"
  end.

End Interface.

Arguments OsPathExists {Obj} path.
Arguments OsMakedirs {Obj} path.
Arguments OsListdir {Obj} path.
Arguments Print {Obj} args.
Arguments NewPreprocessor {Obj} kw.
Arguments ReadData {Obj} path.
Arguments BuildEmbeddingMatrix {Obj} embeddings_file.
Arguments Open {Obj} path mode.
Arguments Close {Obj} path.
Arguments ParseArgs {Obj} p.
Arguments JsonLoad {Obj} path.
Arguments KeyError {Err} key.
Arguments TypeError {Err}.
Arguments RNone {Obj}.
Arguments RBool {Obj} b.
Arguments RNames {Obj} l.
Arguments RArgs {Obj} ns.
Arguments RJson {Obj} v.
Arguments Returned {Obj Err} r.
Arguments Threw {Obj Err} e.

(** An environment answers every call from its current state, and holds
    the object that the attribute [preprocessor.worddict] refers to. *)
Record Env : Type := mkEnv
  { Obj : Type;
    Err : Type;
    World : Type;
    perform : forall c : Call Obj, World -> (Err + Resp c) * World;
    worddict_of : World -> Obj }.

(** ** Runs

    A run threads the state of the environment, the trace of the calls made
    so far and a count of the steps taken (one per call, one per iteration
    of a loop).  An exception ends the run: the script has no handler. *)

Section Script.

Variable E : Env.

Record Event : Type := mkEvent
  { ev_pre : World E;                  (* the environment when the call was made *)
    ev_call : Call (Obj E);
    ev_out : Outcome (Obj E) (Err E) }.

Record State : Type := mkState
  { world : World E; trace : list Event; steps : nat }.

Definition M (A : Type) : Type := State -> (Exn (Err E) + A) * State.

Definition ret {A} (a : A) : M A := fun st => (inr a, st).

Definition raise {A} (e : Exn (Err E)) : M A := fun st => (inl e, st).

Definition bind {A B} (m : M A) (k : A -> M B) : M B :=
  fun st =>
    match m st with
    | (inl e, st') => (inl e, st')
    | (inr a, st') => k a st'
    end.

Definition lift {A} (r : Exn (Err E) + A) : M A :=
  match r with inl e => raise e | inr a => ret a end.

Definition tick : M unit :=
  fun st => (inr tt, mkState (world st) (trace st) (S (steps st))).

Definition call (c : Call (Obj E)) : M (Resp c) :=
  fun st =>
    let (r, w') := perform E c (world st) in
    (match r with inl e => inl (LibError e) | inr x => inr x end,
     mkState w' (trace st ++ [mkEvent (world st) c (outcome c r)])
             (S (steps st))).

(** [preprocessor.worddict]: an attribute read, not a call. *)
Definition get_worddict : M (Obj E) :=
  fun st => (inr (worddict_of E (world st)), st).

Notation "x <- m ;; k" := (bind m (fun x => k))
  (at level 61, m at next level, right associativity).
Notation "m ;; k" := (bind m (fun _ => k))
  (at level 61, right associativity).

(** [with open(path, mode) as f: body]: the file is closed when the body
    returns and when it raises; an exception of the body goes on after
    the close, unless the close raises one itself. *)
Definition closing {A} (path : string) (body : M A) : M A :=
  fun st =>
    match body st with
    | (inl e, st') =>
        match call (Close path) st' with
        | (inl e', st'') => (inl e', st'')
        | (inr _, st'') => (inl e, st'')
        end
    | (inr a, st') =>
        match call (Close path) st' with
        | (inl e', st'') => (inl e', st'')
        | (inr _, st'') => (inr a, st'')
        end
    end.

Definition with_open {A} (path mode : string) (body : M A) : M A :=
  call (Open path mode) ;; closing path body.

(** [for x in l: s = body(s, x)]. *)
Fixpoint for_each {S} (l : list string) (body : S -> string -> S) (s : S)
  : M S :=
  match l with
  | [] => ret s
  | x :: l' => tick ;; for_each l' body (body s x)
  end.

Definition tab : string := String "009" "".
Definition rule : string := repeat_str 20 "=".

(** *** preprocess_SNLI_data (lines 14-121) *)
Definition preprocess_SNLI_data
    (inputdir embeddings_file targetdir : string) (kw : Kwargs) : M unit :=
  found <- call (OsPathExists targetdir) ;;
  (if negb found then call (OsMakedirs targetdir) else ret tt) ;;
  (* Retrieve the train, dev and test data files from the dataset directory. *)
  listing <- call (OsListdir inputdir) ;;
  files <- for_each listing scan_step no_files ;;
  (* Train data preprocessing *)
  call (NewPreprocessor kw) ;;
  call (Print [rule; " Preprocessing train set "; rule]) ;;
  call (Print [(tab ++ "* Reading data...")%string]) ;;
  data <- call (ReadData (path_join inputdir (train_file files))) ;;
  call (Print [(tab ++ "* Computing worddict and saving it...")%string]) ;;
  call (BuildWorddict (data : Obj E)) ;;
  with_open (path_join targetdir "worddict.pkl") "wb"
    (worddict <- get_worddict ;;
     call (PickleDump worddict (path_join targetdir "worddict.pkl"))) ;;
  call (Print [(tab ++ "* Transforming words in premises and hypotheses to indices...")%string]) ;;
  transformed_data <- call (TransformToIndices (data : Obj E)) ;;
  call (Print [(tab ++ "* Saving result...")%string]) ;;
  with_open (path_join targetdir "train_data.pkl") "wb"
    (call (PickleDump (transformed_data : Obj E) (path_join targetdir "train_data.pkl"))) ;;
  (* Validation data preprocessing *)
  call (Print [rule; " Preprocessing dev set "; rule]) ;;
  call (Print [(tab ++ "* Reading data...")%string]) ;;
  data <- call (ReadData (path_join inputdir (dev_file files))) ;;
  call (Print [(tab ++ "* Transforming words in premises and hypotheses to indices...")%string]) ;;
  transformed_data <- call (TransformToIndices (data : Obj E)) ;;
  call (Print [(tab ++ "* Saving result...")%string]) ;;
  with_open (path_join targetdir "dev_data.pkl") "wb"
    (call (PickleDump (transformed_data : Obj E) (path_join targetdir "dev_data.pkl"))) ;;
  (* Test data preprocessing *)
  call (Print [rule; " Preprocessing test set "; rule]) ;;
  call (Print [(tab ++ "* Reading data...")%string]) ;;
  data <- call (ReadData (path_join inputdir (test_file files))) ;;
  call (Print [(tab ++ "* Transforming words in premises and hypotheses to indices...")%string]) ;;
  transformed_data <- call (TransformToIndices (data : Obj E)) ;;
  call (Print [(tab ++ "* Saving result...")%string]) ;;
  with_open (path_join targetdir "test_data.pkl") "wb"
    (call (PickleDump (transformed_data : Obj E) (path_join targetdir "test_data.pkl"))) ;;
  (* Embeddings preprocessing *)
  call (Print [rule; " Preprocessing embeddings "; rule]) ;;
  call (Print [(tab ++ "* Building embedding matrices and saving them...")%string]) ;;
  embed_matrix <- call (BuildEmbeddingMatrix embeddings_file) ;;
  with_open (path_join targetdir "embeddings.pkl") "wb"
    (call (PickleDump (embed_matrix : Obj E) (path_join targetdir "embeddings.pkl"))).

(** *** The entry point (lines 124-145) *)

(** [config[key]]. *)
Definition getitem (v : PyVal) (key : string) : Exn (Err E) + PyVal :=
  match v with
  | PyDict items =>
      match find (fun kv => String.eqb (fst kv) key) items with
      | Some kv => inr (snd kv)
      | None => inl (KeyError key)
      end
  | _ => inl TypeError
  end.

(** [os.path.normpath(v)] on a value of the configuration. *)
Definition normpath_val (v : PyVal) : Exn (Err E) + string :=
  match v with
  | PyStr s => inr (normpath s)
  | _ => inl TypeError
  end.

Definition config_path (cfg : PyVal) (key : string) : M string :=
  v <- lift (getitem cfg key) ;; lift (normpath_val v).

Definition main : M unit :=
  args <- call (ParseArgs parser) ;;
  cfg <- with_open (normpath (config args)) "r"
           (call (JsonLoad (normpath (config args)))) ;;
  data_dir <- config_path cfg "data_dir" ;;
  embeddings_file <- config_path cfg "embeddings_file" ;;
  target_dir <- config_path cfg "target_dir" ;;
  lowercase <- lift (getitem cfg "lowercase") ;;
  ignore_punctuation <- lift (getitem cfg "ignore_punctuation") ;;
  num_words <- lift (getitem cfg "num_words") ;;
  stopwords <- lift (getitem cfg "stopwords") ;;
  labeldict <- lift (getitem cfg "labeldict") ;;
  bos <- lift (getitem cfg "bos") ;;
  eos <- lift (getitem cfg "eos") ;;
  preprocess_SNLI_data data_dir embeddings_file target_dir
    (mkKwargs lowercase ignore_punctuation num_words stopwords labeldict bos eos).

(** A run from a given state of the environment. *)
Definition exec {A} (m : M A) (w : World E) : (Exn (Err E) + A) * State :=
  m (mkState w [] 0).

Definition obs (ev : Event) : Call (Obj E) * Outcome (Obj E) (Err E) :=
  (ev_call ev, ev_out ev).

Definition calls (tr : list Event) : list (Call (Obj E)) := map ev_call tr.

End Script.

Arguments mkEvent {E} ev_pre ev_call ev_out.
Arguments mkState {E} world trace steps.
Arguments main E : clear implicits.
Arguments preprocess_SNLI_data E inputdir embeddings_file targetdir kw : clear implicits.

(** ** A simulated environment

    A disk is a list of paths (files and directories); objects are named by
    strings.  Reading a path that is not on the disk raises, as does reading
    a directory. *)

Record Disk : Type := mkDisk
  { paths : list string;       (* what exists *)
    vocab : string;            (* preprocessor.worddict *)
    stored_config : PyVal }.   (* what json.load finds in the configuration file *)

Definition on_disk (p : string) (d : Disk) : bool :=
  existsb (String.eqb p) (paths d).

Definition entry_of (dir p : string) : list string :=
  let pre := path_join dir "" in
  if startswith pre p && negb (String.eqb pre p)
  then [String.substring (String.length pre) (String.length p - String.length pre) p]
  else [].

Definition sim_read (tag p : string) (d : Disk) : (string + string) * Disk :=
  if endswith p "/" then (inl "IsADirectoryError", d)
  else if on_disk p d then (inr (tag ++ "(" ++ p ++ ")")%string, d)
  else (inl "FileNotFoundError", d).

Definition sim_perform (c : Call string) : Disk -> (string + Resp c) * Disk :=
  match c as c0 return Disk -> (string + Resp c0) * Disk with
  | OsPathExists p => fun d => (inr (on_disk p d), d)
  | OsMakedirs p => fun d =>
      (inr tt, mkDisk (paths d ++ [p]) (vocab d) (stored_config d))
  | OsListdir p => fun d =>
      if on_disk p d then (inr (flat_map (entry_of p) (paths d)), d)
      else (inl "FileNotFoundError", d)
  | Print _ => fun d => (inr tt, d)
  | NewPreprocessor _ => fun d =>
      (inr tt, mkDisk (paths d) "{}" (stored_config d))
  | ReadData p => sim_read "data" p
  | BuildWorddict data => fun d =>
      (inr tt, mkDisk (paths d) ("worddict(" ++ data ++ ")") (stored_config d))
  | TransformToIndices data => fun d =>
      (inr ("indices(" ++ data ++ ", " ++ vocab d ++ ")")%string, d)
  | BuildEmbeddingMatrix f => sim_read "embeddings" f
  | Open p m => fun d =>
      if String.eqb m "r" then
        if on_disk p d then (inr tt, d) else (inl "FileNotFoundError", d)
      else (inr tt, mkDisk (paths d ++ [p]) (vocab d) (stored_config d))
  | PickleDump _ _ => fun d => (inr tt, d)
  | Close _ => fun d => (inr tt, d)
  | ParseArgs p => fun d =>
      (inr (mkNamespace
              match find (fun a => String.eqb (dest a) "config") (actions p) with
              | Some a => match default a with Some s => s | None => "" end
              | None => ""
              end), d)
  | JsonLoad _ => fun d => (inr (stored_config d), d)
  end.

Definition Sim : Env := mkEnv sim_perform vocab.

Definition snli_config : PyVal :=
  PyDict [("data_dir", PyStr "../data/snli/"); ("embeddings_file", PyStr "../data/glove.txt");
          ("target_dir", PyStr "../data/preprocessed"); ("lowercase", PyBool false);
          ("ignore_punctuation", PyBool false); ("num_words", PyNone);
          ("stopwords", PyList []); ("labeldict", PyDict [("entailment", PyInt 0)]);
          ("bos", PyStr "_BOS_"); ("eos", PyStr "_EOS_")].

(** A complete corpus, and one whose train file is missing. *)
Definition snli_disk : Disk :=
  mkDisk ["../config/preprocessing.json"; "../data/snli";
          "../data/snli/snli_1.0_dev.txt"; "../data/snli/README.txt";
          "../data/snli/snli_1.0_test.txt"; "../data/snli/snli_1.0_train.txt";
          "../data/glove.txt"]
         "" snli_config.

Definition bare_disk : Disk :=
  mkDisk ["../config/preprocessing.json"; "../data/snli";
          "../data/snli/snli_1.0_dev.txt"; "../data/snli/snli_1.0_test.txt";
          "../data/glove.txt"]
         "" snli_config.

Definition sim_call (pre : Disk) (c : Call string) : Event Sim :=
  @mkEvent Sim pre c (outcome c (fst (sim_perform c pre))).

(** ** Vocabulary of the properties *)

Inductive Slot : Type := Train | Dev | Test.

Definition pattern_of (s : Slot) : string :=
  match s with
  | Train => "*_train.txt"
  | Dev => "*_dev.txt"
  | Test => "*_test.txt"
  end.

Definition slot_value (s : Slot) (fs : Files) : string :=
  match s with
  | Train => train_file fs
  | Dev => dev_file fs
  | Test => test_file fs
  end.

Definition matches (s : Slot) (file : string) : bool := fnmatch file (pattern_of s).

(** A pattern character that stands for itself. *)
Definition literal_char (c : ascii) : bool :=
  negb (Ascii.eqb c "*") && negb (Ascii.eqb c "?").

(** [runs_to m st Q]: the run of [m] from [st] ends in an outcome and a
    state that satisfy [Q]. *)
Definition runs_to {E : Env} {A} (m : M E A) (st : State E)
    (Q : Exn (Err E) + A -> State E -> Prop) : Prop :=
  Q (fst (m st)) (snd (m st)).

(** Counting the calls of a kind, and what a trace shows of the calls and
    of their outcomes. *)
Definition count_calls {E : Env} (kind : Call (Obj E) -> bool)
    (tr : list (Event E)) : nat :=
  length (filter kind (calls tr)).

Definition observed {E : Env} (tr : list (Event E))
  : list (Call (Obj E) * Outcome (Obj E) (Err E)) :=
  map (@obs E) tr.

Definition preprocessor_calls {E : Env} (tr : list (Event E))
  : list (Call (Obj E) * Outcome (Obj E) (Err E)) :=
  filter (fun o => is_preprocessor_call (fst o)) (observed tr).

(** The entries that the [os.listdir] calls of a trace returned: the loop
    runs once for each. *)
Definition listed {E : Env} (tr : list (Event E)) : list string :=
  flat_map (fun ev => match ev_out ev with
                      | Returned (RNames l) => l
                      | _ => []
                      end) tr.

Definition is_file_call {O : Type} (c : Call O) : bool :=
  match c with
  | Open _ _ | PickleDump _ _ | Close _ => true
  | _ => false
  end.

Definition file_calls {E : Env} (tr : list (Event E))
  : list (Call (Obj E) * Outcome (Obj E) (Err E)) :=
  filter (fun o => is_file_call (fst o)) (observed tr).

(** The runs of the simulated environment used as examples: the corpus
    directory, the embeddings file and the target directory of the
    configuration. *)
Definition snli_run (d : Disk) : (Exn string + unit) * State Sim :=
  exec (preprocess_SNLI_data Sim "../data/snli" "../data/glove.txt"
          "../data/preprocessed" default_kwargs) d.

(** The calls that give [preprocessor.worddict] its value: the constructor
    and [build_worddict].  An environment keeps the word dictionary when no
    other call changes what the attribute refers to. *)
Definition sets_worddict {O : Type} (c : Call O) : bool :=
  match c with
  | NewPreprocessor _ | BuildWorddict _ => true
  | _ => false
  end.

Definition worddict_kept (E : Env) : Prop :=
  forall (c : Call (Obj E)) (w : World E),
    sets_worddict c = false ->
    worddict_of E (snd (perform E c w)) = worddict_of E w.

(** The part of a list before the first element that satisfies [p]. *)
Fixpoint before_first {A} (p : A -> bool) (l : list A) : list A :=
  match l with
  | [] => []
  | x :: l' => if p x then [] else x :: before_first p l'
  end.

(** [each_event P pre tr]: every event of [tr] satisfies [P] together with
    the events before it ([pre], then the earlier events of [tr]). *)
Fixpoint each_event {A} (P : list A -> A -> Prop) (pre tr : list A) : Prop :=
  match tr with
  | [] => True
  | ev :: tr' => P pre ev /\ each_event P (pre ++ [ev]) tr'
  end.

(** The five files of the target directory. *)
Definition pickle_names : list string :=
  ["worddict.pkl"; "train_data.pkl"; "dev_data.pkl"; "test_data.pkl";
   "embeddings.pkl"].

Definition pickle_paths (targetdir : string) : list string :=
  map (path_join targetdir) pickle_names.

(** The target directory is there: [os.path.exists] said so, or it said no
    and [os.makedirs] returned. *)
Definition target_ready {O X : Type} (targetdir : string)
    (pre : list (Call O * Outcome O X)) : Prop :=
  In (OsPathExists targetdir, Returned (RBool true)) pre
  \/ (In (OsPathExists targetdir, Returned (RBool false)) pre
      /\ In (OsMakedirs targetdir, Returned RNone) pre).

(** What [preprocess_SNLI_data] may ask of the file system, given what it
    has seen so far: the test of the target directory comes first; the
    directory is made right after a negative test and at no other moment;
    files are opened for writing only, dumped to and closed only among the
    five pickle files, and once the target directory is there.  Listing the
    input directory, printing and the calls on the Preprocessor write
    nothing themselves; the calls of the entry point do not occur. *)
Definition script_may {O X : Type} (targetdir : string)
    (pre : list (Call O * Outcome O X)) (c : Call O) : Prop :=
  match c with
  | OsPathExists p => p = targetdir /\ pre = []
  | OsMakedirs p =>
      p = targetdir /\ pre = [(OsPathExists targetdir, Returned (RBool false))]
  | Open p m =>
      m = "wb" /\ In p (pickle_paths targetdir) /\ target_ready targetdir pre
  | PickleDump _ p =>
      In p (pickle_paths targetdir) /\ target_ready targetdir pre
      /\ In (Open p "wb", Returned RNone) pre
  | Close p => In p (pickle_paths targetdir)
  | ParseArgs _ | JsonLoad _ => False
  | _ => True
  end.

(** The place of a slot among the three [read_data] calls. *)
Definition slot_index (s : Slot) : nat :=
  match s with Train => 0 | Dev => 1 | Test => 2 end.

Definition read_data_calls {E : Env} (tr : list (Event E)) : list (Call (Obj E)) :=
  filter (@is_read_data _) (calls tr).

(** The outcomes of the calls of a trace. *)
Definition outcomes {E : Env} (tr : list (Event E))
  : list (Outcome (Obj E) (Err E)) :=
  map (@ev_out E) tr.

(** The configuration has been read and parsed: the first four calls were
    [parse_args], the [open] of the configuration file for reading,
    [json.load] on it and the close, and all four returned. *)
Definition config_read {O X : Type} (pre : list (Call O * Outcome O X)) : Prop :=
  exists (ns : Namespace) (cfg : PyVal),
    firstn 4 pre =
    [ (ParseArgs parser, Returned (RArgs ns));
      (Open (normpath (config ns)) "r", Returned RNone);
      (JsonLoad (normpath (config ns)), Returned (RJson cfg));
      (Close (normpath (config ns)), Returned RNone) ].

(** The latest call on the Preprocessor, with its outcome. *)
Definition last_method {O X : Type} (pre : list (Call O * Outcome O X))
  : option (Call O * Outcome O X) :=
  last (map Some (filter (fun o => is_preprocessor_call (fst o)) pre)) None.

(** The latest call on the Preprocessor is one whose result gets pickled,
    and it has returned. *)
Definition producer_returned {O X : Type} (pre : list (Call O * Outcome O X))
  : Prop :=
  match last_method pre with
  | Some (BuildWorddict _, Returned _)
  | Some (TransformToIndices _, Returned _)
  | Some (BuildEmbeddingMatrix _, Returned _) => True
  | _ => False
  end.

(** [obj] is what the latest call on the Preprocessor produced: what
    [transform_to_indices] or [build_embedding_matrix] returned, or, after
    [build_worddict], the object [preprocessor.worddict] refers to. *)
Definition result_of_last_method {E : Env} (pre : list (Event E))
    (now : World E) (obj : Obj E) : Prop :=
  match last_method (observed pre) with
  | Some (BuildWorddict _, Returned _) => obj = worddict_of E now
  | Some (TransformToIndices _, Returned (RObj t)) => obj = t
  | Some (BuildEmbeddingMatrix _, Returned (RObj m)) => obj = m
  | _ => False
  end.

(** The place of a call of the entry point among the calls before it. *)
Definition in_order {E : Env} (pre : list (Event E)) (ev : Event E) : Prop :=
  match ev_call ev with
  | ParseArgs p => p = parser /\ pre = []
  | Open p m =>
      (m = "r" /\ exists ns,
         observed pre = [(ParseArgs parser, Returned (RArgs ns))]
         /\ p = normpath (config ns))
      \/ (m = "wb" /\ config_read (observed pre)
          /\ producer_returned (observed pre))
  | JsonLoad p =>
      exists ns,
        observed pre = [ (ParseArgs parser, Returned (RArgs ns));
                         (Open (normpath (config ns)) "r", Returned RNone) ]
        /\ p = normpath (config ns)
  | Close p =>
      (exists ns o,
         observed pre = [ (ParseArgs parser, Returned (RArgs ns));
                          (Open (normpath (config ns)) "r", Returned RNone);
                          (JsonLoad (normpath (config ns)), o) ]
         /\ p = normpath (config ns))
      \/ config_read (observed pre)
  | PickleDump obj p =>
      config_read (observed pre)
      /\ In (Open p "wb", Returned RNone) (observed pre)
      /\ result_of_last_method pre (ev_pre ev) obj
  | _ => config_read (observed pre)
  end.

(** The methods of the Preprocessor in the order of the script. *)
Definition method_order : list string :=
  [ "Preprocessor";
    "Preprocessor.read_data"; "Preprocessor.build_worddict";
    "Preprocessor.transform_to_indices";
    "Preprocessor.read_data"; "Preprocessor.transform_to_indices";
    "Preprocessor.read_data"; "Preprocessor.transform_to_indices";
    "Preprocessor.build_embedding_matrix" ].

Fixpoint is_prefix_of (l full : list string) : bool :=
  match l, full with
  | [], _ => true
  | x :: l', y :: full' => String.eqb x y && is_prefix_of l' full'
  | _ :: _, [] => false
  end.

Definition methods_called {E : Env} (tr : list (Event E)) : list string :=
  map (@call_name _) (filter (@is_preprocessor_call _) (calls tr)).

Definition is_parse_args {O : Type} (c : Call O) : bool :=
  match c with ParseArgs _ => true | _ => false end.

(** The functions behind the calls of the script: the file system, the
    console, the Preprocessor, [pickle], [argparse] and [json]. *)
Definition script_functions : list string :=
  [ "os.path.exists"; "os.makedirs"; "os.listdir"; "print"; "Preprocessor";
    "Preprocessor.read_data"; "Preprocessor.build_worddict";
    "Preprocessor.transform_to_indices"; "Preprocessor.build_embedding_matrix";
    "open"; "pickle.dump"; "file.close"; "ArgumentParser.parse_args";
    "json.load" ].

(** A run of the entry point in the simulated environment. *)
Definition snli_main (d : Disk) : (Exn string + unit) * State Sim :=
  exec (main Sim) d.

(** The keys that the entry point reads from the configuration, in the
    order in which it reads them; the first three hold paths. *)
Definition config_keys : list string :=
  [ "data_dir"; "embeddings_file"; "target_dir"; "lowercase";
    "ignore_punctuation"; "num_words"; "stopwords"; "labeldict"; "bos"; "eos" ].

Definition path_keys : list string := ["data_dir"; "embeddings_file"; "target_dir"].

(** The four calls that read the configuration, all of which returned. *)
Definition config_calls {O X : Type} (ns : Namespace) (cfg : PyVal)
  : list (Call O * Outcome O X) :=
  [ (ParseArgs parser, Returned (RArgs ns));
    (Open (normpath (config ns)) "r", Returned RNone);
    (JsonLoad (normpath (config ns)), Returned (RJson cfg));
    (Close (normpath (config ns)), Returned RNone) ].

(** [cfg !! key] is a string whose normal form is [path]. *)
Definition config_path_is (E : Env) (cfg : PyVal) (key path : string) : Prop :=
  exists s, getitem E cfg key = inr (PyStr s) /\ path = normpath s.

(** What a call gets from the configuration [cfg]: the three paths in
    normal form, the seven other entries as they are. *)
Definition passes_config (E : Env) (cfg : PyVal) (c : Call (Obj E)) : Prop :=
  match c with
  | OsPathExists p | OsMakedirs p => config_path_is E cfg "target_dir" p
  | OsListdir p => config_path_is E cfg "data_dir" p
  | BuildEmbeddingMatrix f => config_path_is E cfg "embeddings_file" f
  | NewPreprocessor kw =>
      getitem E cfg "lowercase" = inr (lowercase kw)
      /\ getitem E cfg "ignore_punctuation" = inr (ignore_punctuation kw)
      /\ getitem E cfg "num_words" = inr (num_words kw)
      /\ getitem E cfg "stopwords" = inr (stopwords kw)
      /\ getitem E cfg "labeldict" = inr (labeldict kw)
      /\ getitem E cfg "bos" = inr (bos kw)
      /\ getitem E cfg "eos" = inr (eos kw)
  | _ => True
  end.

(** The configurations that [json.load] returned in a trace. *)
Definition loaded {E : Env} (tr : list (Event E)) : list PyVal :=
  flat_map (fun ev => match ev_out ev with
                      | Returned (RJson cfg) => [cfg]
                      | _ => []
                      end) tr.

(** The paths of the [open] calls that returned, and of the close calls. *)
Definition opened_paths {E : Env} (tr : list (Event E)) : list string :=
  flat_map (fun ev => match ev_call ev, ev_out ev with
                      | Open p _, Returned _ => [p]
                      | _, _ => []
                      end) tr.

Definition closed_paths {E : Env} (tr : list (Event E)) : list string :=
  flat_map (fun ev => match ev_call ev with Close p => [p] | _ => [] end) tr.

(** What the [print] calls of a trace were given, and what a complete run
    prints (lines 79-118). *)
Definition printed {E : Env} (tr : list (Event E)) : list (list string) :=
  flat_map (fun ev => match ev_call ev with Print args => [args] | _ => [] end) tr.

Definition progress_of_set : list (list string) :=
  [ [(tab ++ "* Reading data...")%string];
    [(tab ++ "* Transforming words in premises and hypotheses to indices...")%string];
    [(tab ++ "* Saving result...")%string] ].

Definition expected_output : list (list string) :=
  [ [rule; " Preprocessing train set "; rule];
    [(tab ++ "* Reading data...")%string];
    [(tab ++ "* Computing worddict and saving it...")%string];
    [(tab ++ "* Transforming words in premises and hypotheses to indices...")%string];
    [(tab ++ "* Saving result...")%string];
    [rule; " Preprocessing dev set "; rule] ]
  ++ progress_of_set
  ++ [ [rule; " Preprocessing test set "; rule] ]
  ++ progress_of_set
  ++ [ [rule; " Preprocessing embeddings "; rule];
       [(tab ++ "* Building embedding matrices and saving them...")%string] ].



(** The paths of the [pickle.dump] calls that returned, the paths given to
    [read_data], and the three paths that the selection of a listing
    stands for. *)
Definition dumped_paths {E : Env} (tr : list (Event E)) : list string :=
  flat_map (fun ev => match ev_call ev, ev_out ev with
                      | PickleDump _ p, Returned _ => [p]
                      | _, _ => []
                      end) tr.

Definition read_paths {E : Env} (tr : list (Event E)) : list string :=
  flat_map (fun ev => match ev_call ev with ReadData p => [p] | _ => [] end) tr.

Definition selected_paths (inputdir : string) (listing : list string) : list string :=
  map (fun s => path_join inputdir (slot_value s (select_files listing)))
      [Train; Dev; Test].

(** A component that [normpath] keeps: not empty, without a separator. *)
Definition component (s : string) : Prop := s <> "" /\ ~ In "/"%char (chars s).

(* ================================================================= *)
(** * Properties *)

(** ** Sanity checks of the pure functions *)

Example select_files_ex :
  select_files ["snli_1.0_dev.txt"; "README.txt"; "snli_1.0_train.txt";
                "snli_1.0_test.txt"; "x_train.txt.bak"]
  = mkFiles "snli_1.0_train.txt" "snli_1.0_dev.txt" "snli_1.0_test.txt".
Proof. reflexivity. Qed.

Example path_join_ex :
  path_join "data" "a.txt" = "data/a.txt" /\ path_join "data/" "a.txt" = "data/a.txt"
  /\ path_join "data" "" = "data/" /\ path_join "" "a.txt" = "a.txt"
  /\ path_join "data" "/abs" = "/abs".
Proof. repeat split. Qed.

Example normpath_ex :
  normpath "../config/preprocessing.json" = "../config/preprocessing.json"
  /\ normpath "a//b/./c/.." = "a/b" /\ normpath "" = "." /\ normpath "//a/" = "//a"
  /\ normpath "///a" = "/a" /\ normpath "/.." = "/" /\ normpath "../data/snli/" = "../data/snli"
  /\ normpath "a/.." = ".".
Proof. repeat split. Qed.

(** ** File-name patterns *)

Lemma chars_app (s t : string) : chars (s ++ t) = chars s ++ chars t.
Proof.
  unfold chars. induction s as [|c s IH]; simpl; [reflexivity|].
  now rewrite IH.
Qed.

Lemma chars_inj (s t : string) : chars s = chars t -> s = t.
Proof.
  unfold chars. intros H.
  rewrite <- (string_of_list_ascii_of_string s), H.
  apply string_of_list_ascii_of_string.
Qed.

(** A pattern without wildcards matches itself only. *)
Lemma glob_literal (pat name : list ascii) :
  forallb literal_char pat = true ->
  glob pat name = true <-> name = pat.
Proof.
  revert name. induction pat as [|c pat IH]; intros name Hlit.
  - destruct name; simpl; split; congruence.
  - simpl in Hlit. apply andb_true_iff in Hlit as [Hc Hpat].
    unfold literal_char in Hc. apply andb_true_iff in Hc as [Hstar Hq].
    apply negb_true_iff in Hstar, Hq.
    simpl. rewrite Hstar, Hq.
    destruct name as [|d name]; [split; congruence|].
    rewrite andb_true_iff, (IH name Hpat), Ascii.eqb_eq.
    split; [intros [-> ->]; reflexivity | intros [= -> ->]; auto].
Qed.

(** [*] followed by literal text matches the names that end in the text. *)
Lemma glob_star_suffix (suf name : list ascii) :
  forallb literal_char suf = true ->
  glob ("*"%char :: suf) name = true <-> exists stem, name = stem ++ suf.
Proof.
  intros Hlit. cbn [glob]. rewrite Ascii.eqb_refl.
  induction name as [|d name IH].
  - rewrite orb_false_r, (@glob_literal suf _ Hlit). split.
    + intros <-. now exists [].
    + intros [stem H]. symmetry in H. apply app_eq_nil in H as [_ H]. now symmetry.
  - rewrite orb_true_iff, (@glob_literal suf _ Hlit), IH. split.
    + intros [-> | [stem ->]]; [now exists [] | now exists (d :: stem)].
    + intros [[|c stem] H]; simpl in H.
      * now left.
      * injection H as _ ->. right. now exists stem.
Qed.

(** The three patterns of the script select by suffix. *)
Lemma fnmatch_suffix (s : Slot) (name : string) :
  fnmatch name (pattern_of s) = true <->
  exists stem, name = (stem ++ str (tl (chars (pattern_of s))))%string.
Proof.
  unfold fnmatch.
  assert (Hs : chars (pattern_of s) = "*"%char :: tl (chars (pattern_of s)))
    by (destruct s; reflexivity).
  rewrite Hs at 1. rewrite glob_star_suffix by (destruct s; reflexivity).
  split.
  - intros [stem H]. exists (str stem). apply chars_inj.
    rewrite chars_app, H. unfold chars, str.
    now rewrite !list_ascii_of_string_of_list_ascii.
  - intros [stem ->]. exists (chars stem). rewrite chars_app. unfold chars, str.
    now rewrite list_ascii_of_string_of_list_ascii.
Qed.

Lemma fnmatch_empty (s : Slot) : fnmatch "" (pattern_of s) = false.
Proof. destruct s; reflexivity. Qed.

(** No name matches two of the patterns. *)
Lemma patterns_disjoint (s s' : Slot) (name : string) :
  fnmatch name (pattern_of s) = true ->
  fnmatch name (pattern_of s') = true ->
  s = s'.
Proof.
  unfold fnmatch. intros H H'.
  assert (Hs : forall z, chars (pattern_of z) = "*"%char :: tl (chars (pattern_of z)))
    by (intros []; reflexivity).
  rewrite Hs in H, H'.
  apply glob_star_suffix in H; [|destruct s; reflexivity].
  apply glob_star_suffix in H'; [|destruct s'; reflexivity].
  destruct H as [p Hp], H' as [q Hq]. rewrite Hp in Hq.
  apply (f_equal (fun l => firstn 5 (rev l))) in Hq.
  rewrite !rev_app_distr in Hq.
  destruct s, s'; try reflexivity; simpl in Hq; discriminate Hq.
Qed.

(** ** The selection loop *)

Lemma last_cons {A} (a : A) (l : list A) (d : A) : last (a :: l) d = last l a.
Proof.
  revert a d. induction l as [|b l IH]; intros a d; [reflexivity|].
  change (last (a :: b :: l) d) with (last (b :: l) d).
  now rewrite !IH.
Qed.

Lemma last_filter_cases {A} (p : A -> bool) (l : list A) (d : A) :
  last (filter p l) d = d \/
  (In (last (filter p l) d) l /\ p (last (filter p l) d) = true).
Proof.
  revert d. induction l as [|a l IH]; intros d; simpl; [now left|].
  destruct (p a) eqn:Hpa.
  - rewrite last_cons. destruct (IH a) as [-> | [Hin Hp]]; right; auto.
  - destruct (IH d) as [-> | [Hin Hp]]; [now left | right; auto].
Qed.

Lemma scan_step_slot (s : Slot) (st : Files) (file : string) :
  slot_value s (scan_step st file) =
  if matches s file then file else slot_value s st.
Proof.
  unfold scan_step, matches.
  destruct (fnmatch file "*_train.txt") eqn:Ht;
  [|destruct (fnmatch file "*_dev.txt") eqn:Hd;
    [|destruct (fnmatch file "*_test.txt") eqn:Hs]];
  destruct s; simpl; rewrite ?Ht, ?Hd, ?Hs; try reflexivity;
  match goal with
  | |- context [fnmatch file ?p] =>
      destruct (fnmatch file p) eqn:Hx; [|reflexivity]
  end.
  - discriminate (patterns_disjoint Train Dev file Ht Hx).
  - discriminate (patterns_disjoint Train Test file Ht Hx).
  - discriminate (patterns_disjoint Dev Test file Hd Hx).
Qed.

(** Each variable ends as the last matching entry, or as it started. *)
Lemma fold_scan_step_slot (s : Slot) (listing : list string) (st : Files) :
  slot_value s (fold_left scan_step listing st) =
  last (filter (matches s) listing) (slot_value s st).
Proof.
  revert st. induction listing as [|file listing IH]; intros st; simpl; [reflexivity|].
  rewrite IH, scan_step_slot.
  destruct (matches s file); [now rewrite last_cons | reflexivity].
Qed.

(** C2, as stated, fails: with two entries that match [*_train.txt], the
    first one matches the pattern and is not the train file. *)
Lemma C2_two_train_files :
  let listing := ["a_train.txt"; "b_train.txt"] in
  In "a_train.txt" listing
  /\ fnmatch "a_train.txt" "*_train.txt" = true
  /\ train_file (select_files listing) <> "a_train.txt"
  /\ ~ (forall file, In file listing ->
          (train_file (select_files listing) = file <->
           fnmatch file "*_train.txt" = true)).
Proof.
  cbv zeta. repeat split.
  - now left.
  - discriminate.
  - intros H. destruct (H "a_train.txt" (or_introl eq_refl)) as [_ H'].
    discriminate (H' eq_refl).
Qed.

(** C2, amended: for every listing, the train file is the last entry whose
    name matches [*_train.txt], the dev file the last one that matches
    [*_dev.txt], the test file the last one that matches [*_test.txt], and
    a variable whose pattern no entry matches stays empty.  The names and
    their order in the listing are all that the selection looks at. *)
Theorem C2_selection_by_name (listing : list string) :
  train_file (select_files listing)
    = last (filter (fun file => fnmatch file "*_train.txt") listing) ""
  /\ dev_file (select_files listing)
    = last (filter (fun file => fnmatch file "*_dev.txt") listing) ""
  /\ test_file (select_files listing)
    = last (filter (fun file => fnmatch file "*_test.txt") listing) "".
Proof.
  unfold select_files. repeat split.
  - apply (fold_scan_step_slot Train).
  - apply (fold_scan_step_slot Dev).
  - apply (fold_scan_step_slot Test).
Qed.

Lemma filter_none {A} (p : A -> bool) (l : list A) :
  (forall x, In x l -> p x = false) -> filter p l = [].
Proof.
  induction l as [|a l IH]; intros H; simpl; [reflexivity|].
  rewrite (H a (or_introl eq_refl)). apply IH. intros x Hx. apply H. now right.
Qed.

Lemma last_app_cons {A} (l1 l2 : list A) (a d : A) :
  last (l1 ++ a :: l2) d = last l2 a.
Proof.
  revert d. induction l1 as [|b l1 IH]; intros d; simpl app.
  - apply last_cons.
  - now rewrite last_cons, IH.
Qed.

(** C9: when entries match the pattern of a slot, the last of them in the
    order of the listing is the one selected, whatever came before it; and
    a name that matches the pattern of one slot never ends in another
    slot. *)
Theorem C9_last_match_wins (s : Slot) (before after : list string) (file : string)
    (Hmatch : fnmatch file (pattern_of s) = true)
    (Hlast : forall later, In later after -> fnmatch later (pattern_of s) = false) :
  slot_value s (select_files (before ++ file :: after)) = file
  /\ forall s', s' <> s ->
       slot_value s' (select_files (before ++ file :: after)) <> file.
Proof.
  unfold select_files. split.
  - rewrite fold_scan_step_slot, filter_app. simpl filter.
    unfold matches at 2. rewrite Hmatch, (filter_none (matches s) after Hlast).
    now rewrite last_app_cons.
  - intros s' Hs' Heq. rewrite fold_scan_step_slot in Heq.
    destruct (last_filter_cases (matches s') (before ++ file :: after) (slot_value s' no_files))
      as [Hd | [_ Hp]]; rewrite Heq in *.
    + assert (file = "") as -> by (destruct s'; exact Hd).
      now rewrite fnmatch_empty in Hmatch.
    + apply Hs'. exact (patterns_disjoint s' s file Hp Hmatch).
Qed.

Lemma C9_witness :
  slot_value Train
    (select_files (["a_train.txt"; "snli_dev.txt"] ++ "b_train.txt" :: ["snli_test.txt"]))
  = "b_train.txt"
  /\ forall s', s' <> Train ->
       slot_value s'
         (select_files (["a_train.txt"; "snli_dev.txt"] ++ "b_train.txt" :: ["snli_test.txt"]))
       <> "b_train.txt".
Proof.
  apply (@C9_last_match_wins Train ["a_train.txt"; "snli_dev.txt"] ["snli_test.txt"]
           "b_train.txt").
  - reflexivity.
  - intros later [<- | []]. reflexivity.
Defined.

(** ** Reasoning rules for runs *)

Section Rules.

Variable E : Env.

Lemma runs_bind {A B} (m : M E A) (k : A -> M E B) st Q :
  runs_to m st (fun out st1 =>
    match out with
    | inl e => Q (inl e) st1
    | inr a => runs_to (k a) st1 Q
    end) ->
  runs_to (bind m k) st Q.
Proof.
  unfold runs_to, bind. destruct (m st) as [[e|a] st1]; simpl; auto.
Qed.

Lemma runs_ret {A} (a : A) st (Q : Exn (Err E) + A -> State E -> Prop) :
  Q (inr a) st -> runs_to (ret a) st Q.
Proof. exact (fun H => H). Qed.

Lemma runs_lift {A} (r : Exn (Err E) + A) st
    (Q : Exn (Err E) + A -> State E -> Prop) :
  Q r st -> runs_to (lift r) st Q.
Proof. unfold runs_to, lift. destruct r; exact (fun H => H). Qed.

Lemma runs_call (c : Call (Obj E)) w tr n
    (Q : Exn (Err E) + Resp c -> State E -> Prop) :
  (forall e w', perform E c w = (inl e, w') ->
     Q (inl (LibError e)) (mkState w' (tr ++ [mkEvent w c (Threw e)]) (S n))) ->
  (forall r w', perform E c w = (inr r, w') ->
     Q (inr r) (mkState w' (tr ++ [mkEvent w c (Returned (to_ret c r))]) (S n))) ->
  runs_to (call c) (mkState w tr n) Q.
Proof.
  unfold runs_to, call. simpl. intros He Hr.
  destruct (perform E c w) as [[e|r] w'] eqn:Hp; simpl; auto.
Qed.

Lemma runs_get_worddict w tr n (Q : Exn (Err E) + Obj E -> State E -> Prop) :
  Q (inr (worddict_of E w)) (mkState w tr n) ->
  runs_to (@get_worddict E) (mkState w tr n) Q.
Proof. exact (fun H => H). Qed.

Lemma runs_closing {A} path (body : M E A) st
    (Q : Exn (Err E) + A -> State E -> Prop) :
  runs_to body st (fun out st1 =>
    runs_to (call (Close path)) st1 (fun out2 st2 =>
      match out2 with
      | inl e' => Q (inl e') st2
      | inr _ => Q out st2
      end)) ->
  runs_to (closing path body) st Q.
Proof.
  unfold runs_to, closing.
  destruct (body st) as [[e|a] st1]; simpl;
    destruct (call (Close path) st1) as [[e'|u] st2]; simpl; auto.
Qed.

(** The loop takes one step for each entry and leaves a left fold. *)
Lemma for_each_run S (body : S -> string -> S) (l : list string)
    (s : S) (st : State E) :
  for_each l body s st
  = (inr (fold_left body l s),
     mkState (world st) (trace st) (length l + steps st)).
Proof.
  revert s st. induction l as [|x l IH]; intros s st; simpl.
  - now destruct st.
  - unfold bind, tick. rewrite IH. simpl. do 2 f_equal. f_equal. lia.
Qed.

Lemma runs_for_each S (body : S -> string -> S) l s w tr n
    (Q : Exn (Err E) + S -> State E -> Prop) :
  Q (inr (fold_left body l s)) (mkState w tr (length l + n)) ->
  runs_to (for_each l body s) (mkState w tr n) Q.
Proof. unfold runs_to. now rewrite for_each_run. Qed.

Lemma runs_exec {A} (m : M E A) w (Q : Exn (Err E) + A -> State E -> Prop) :
  runs_to m (mkState w [] 0) Q ->
  forall out st', exec m w = (out, st') -> Q out st'.
Proof. unfold runs_to, exec. intros H out st' Heq. now rewrite Heq in H. Qed.

(** The same for the runs that return. *)
Lemma runs_exec_returns {A} (m : M E A) w (Q : A -> State E -> Prop) :
  runs_to m (mkState w [] 0)
    (fun out st => match out with inl _ => True | inr a => Q a st end) ->
  forall a st', exec m w = (inr a, st') -> Q a st'.
Proof. unfold runs_to, exec. intros H out st' Heq. now rewrite Heq in H. Qed.

End Rules.

(** One step of a run: the rule of the construct at the head. *)
Ltac step :=
  lazymatch goal with
  | |- runs_to (bind _ _) _ _ => apply runs_bind
  | |- runs_to (with_open _ _ _) _ _ => unfold with_open
  | |- runs_to (config_path _ _) _ _ => unfold config_path
  | |- runs_to (closing _ _) _ _ => apply runs_closing
  | |- runs_to (call ?c) _ _ =>
      apply (@runs_call _ c); [intros ?e ?w ?Hp | intros ?r ?w ?Hp]; cbn [app]
  | |- runs_to (ret _) _ _ => apply runs_ret
  | |- runs_to (lift ?r) _ _ => apply runs_lift; destruct r as [?e|?v] eqn:?Hv
  | |- runs_to (@get_worddict _) _ _ => apply runs_get_worddict
  | |- runs_to (for_each _ _ _) _ _ => apply runs_for_each
  | |- runs_to (if negb ?b then _ else _) _ _ => destruct b; cbn [negb]
  end; cbv beta iota.

Ltac walk := repeat step; cbn [trace steps world to_ret].

(** Membership in an explicit list, by position. *)
Ltac find_in := solve [repeat (first [apply in_eq | apply in_cons])].

(** ** Termination (C7) *)

(** C7: for every environment, whatever the listing it returns and whatever
    its other calls return or raise, the run of [preprocess_SNLI_data] ends:
    it has an outcome and a final state, after at most 46 calls and one
    iteration of the loop for each entry of the listing, and nothing else is
    counted as a step. *)
Theorem C7_run_ends (E : Env) (inputdir embeddings_file targetdir : string)
    (kw : Kwargs) (w : World E) :
  exists out st',
    exec (preprocess_SNLI_data E inputdir embeddings_file targetdir kw) w = (out, st')
    /\ length (trace st') <= 46
    /\ steps st' = length (trace st') + length (listed (trace st'))
    /\ count_calls (fun c => match c with OsListdir _ => true | _ => false end)
         (trace st') <= 1.
Proof.
  destruct (exec (preprocess_SNLI_data E inputdir embeddings_file targetdir kw) w)
    as [out st'] eqn:Hrun.
  exists out, st'. split; [reflexivity|].
  revert out st' Hrun. apply runs_exec. unfold preprocess_SNLI_data.
  walk.
  all: unfold listed, count_calls; cbn [length flat_map app calls map filter ev_out ev_call];
    rewrite ?app_nil_r; repeat split; lia.
Qed.

(** ** The calls on the Preprocessor (C1) *)

(** C1, as stated, fails: when the train file is missing the first
    [read_data] call raises and the run is over, with one [read_data] call
    instead of three, no [transform_to_indices] call and no
    [build_embedding_matrix] call. *)
Lemma C1_run_cut_short :
  let run := snli_run bare_disk in
  fst run = inl (LibError "IsADirectoryError")
  /\ count_calls (@is_read_data _) (trace (snd run)) = 1
  /\ count_calls (@is_transform_to_indices _) (trace (snd run)) = 0
  /\ count_calls (@is_build_embedding_matrix _) (trace (snd run)) = 0.
Proof. vm_compute. repeat split. Qed.

(** C1, amended: in every run that returns (no call raised), the calls on
    the Preprocessor are, in this order: the constructor; [read_data] on
    the train file, [build_worddict] and [transform_to_indices] on what it
    returned; [read_data] on the dev file and [transform_to_indices] on the
    result; the same for the test file; and [build_embedding_matrix] on the
    embeddings file.  So three [read_data] calls, three
    [transform_to_indices] calls, one [build_embedding_matrix] call, one
    [build_worddict] call, and no other. *)
Theorem C1_preprocessor_calls (E : Env) (inputdir embeddings_file targetdir : string)
    (kw : Kwargs) (w : World E) (st' : State E)
    (Hrun : exec (preprocess_SNLI_data E inputdir embeddings_file targetdir kw) w
            = (inr tt, st')) :
  exists (listing : list string) (d1 t1 d2 t2 d3 t3 m : Obj E),
    In (OsListdir inputdir, Returned (RNames listing)) (observed (trace st'))
    /\ preprocessor_calls (trace st') =
       [ (NewPreprocessor kw, Returned RNone);
         (ReadData (path_join inputdir (train_file (select_files listing))),
          Returned (RObj d1));
         (BuildWorddict d1, Returned RNone);
         (TransformToIndices d1, Returned (RObj t1));
         (ReadData (path_join inputdir (dev_file (select_files listing))),
          Returned (RObj d2));
         (TransformToIndices d2, Returned (RObj t2));
         (ReadData (path_join inputdir (test_file (select_files listing))),
          Returned (RObj d3));
         (TransformToIndices d3, Returned (RObj t3));
         (BuildEmbeddingMatrix embeddings_file, Returned (RObj m)) ]
    /\ count_calls (@is_read_data _) (trace st') = 3
    /\ count_calls (@is_transform_to_indices _) (trace st') = 3
    /\ count_calls (@is_build_embedding_matrix _) (trace st') = 1
    /\ count_calls (@is_build_worddict _) (trace st') = 1.
Proof.
  revert st' Hrun. generalize tt.
  apply runs_exec_returns. unfold preprocess_SNLI_data.
  walk; try exact I.
  all: unfold select_files; do 8 eexists; repeat split; try reflexivity;
    unfold observed; cbn [map obs ev_call ev_out]; auto 60 using in_eq, in_cons.
Qed.

Lemma C1_witness :
  count_calls (@is_read_data _) (trace (snd (snli_run snli_disk))) = 3
  /\ count_calls (@is_transform_to_indices _) (trace (snd (snli_run snli_disk))) = 3
  /\ count_calls (@is_build_embedding_matrix _) (trace (snd (snli_run snli_disk))) = 1.
Proof.
  destruct (@C1_preprocessor_calls Sim "../data/snli" "../data/glove.txt"
              "../data/preprocessed" default_kwargs snli_disk
              (snd (snli_run snli_disk)))
    as (listing & d1 & t1 & d2 & t2 & d3 & t3 & m & _ & _ & Hr & Ht & He & _).
  - vm_compute. reflexivity.
  - exact (conj Hr (conj Ht He)).
Defined.

(** ** The pickled outputs (C3) *)

(** C3: in every run that returns, the file calls are five blocks, each an
    [open] for writing, one [pickle.dump] and the close, on [worddict.pkl],
    [train_data.pkl], [dev_data.pkl], [test_data.pkl] and [embeddings.pkl]
    joined to [targetdir], in this order, and every one of them returned.
    What is dumped: the object [preprocessor.worddict] refers to at that
    moment; what [transform_to_indices] returned for the data read from the
    train, the dev and the test file; what [build_embedding_matrix]
    returned. *)
Theorem C3_five_pickles (E : Env) (inputdir embeddings_file targetdir : string)
    (kw : Kwargs) (w : World E) (st' : State E)
    (Hrun : exec (preprocess_SNLI_data E inputdir embeddings_file targetdir kw) w
            = (inr tt, st')) :
  exists (listing : list string) (d1 t1 d2 t2 d3 t3 m : Obj E) (w_dump : World E),
    let files := select_files listing in
    let worddict_pkl := path_join targetdir "worddict.pkl" in
    let train_pkl := path_join targetdir "train_data.pkl" in
    let dev_pkl := path_join targetdir "dev_data.pkl" in
    let test_pkl := path_join targetdir "test_data.pkl" in
    let embeddings_pkl := path_join targetdir "embeddings.pkl" in
    In (mkEvent w_dump (PickleDump (worddict_of E w_dump) worddict_pkl)
          (Returned RNone)) (trace st')
    /\ file_calls (trace st') =
       [ (Open worddict_pkl "wb", Returned RNone);
         (PickleDump (worddict_of E w_dump) worddict_pkl, Returned RNone);
         (Close worddict_pkl, Returned RNone);
         (Open train_pkl "wb", Returned RNone);
         (PickleDump t1 train_pkl, Returned RNone);
         (Close train_pkl, Returned RNone);
         (Open dev_pkl "wb", Returned RNone);
         (PickleDump t2 dev_pkl, Returned RNone);
         (Close dev_pkl, Returned RNone);
         (Open test_pkl "wb", Returned RNone);
         (PickleDump t3 test_pkl, Returned RNone);
         (Close test_pkl, Returned RNone);
         (Open embeddings_pkl "wb", Returned RNone);
         (PickleDump m embeddings_pkl, Returned RNone);
         (Close embeddings_pkl, Returned RNone) ]
    /\ count_calls (@is_pickle_dump _) (trace st') = 5
    /\ In (OsListdir inputdir, Returned (RNames listing)) (observed (trace st'))
    /\ In (ReadData (path_join inputdir (train_file files)), Returned (RObj d1))
         (observed (trace st'))
    /\ In (TransformToIndices d1, Returned (RObj t1)) (observed (trace st'))
    /\ In (ReadData (path_join inputdir (dev_file files)), Returned (RObj d2))
         (observed (trace st'))
    /\ In (TransformToIndices d2, Returned (RObj t2)) (observed (trace st'))
    /\ In (ReadData (path_join inputdir (test_file files)), Returned (RObj d3))
         (observed (trace st'))
    /\ In (TransformToIndices d3, Returned (RObj t3)) (observed (trace st'))
    /\ In (BuildEmbeddingMatrix embeddings_file, Returned (RObj m))
         (observed (trace st')).
Proof.
  revert st' Hrun. generalize tt.
  apply runs_exec_returns. unfold preprocess_SNLI_data.
  walk; try exact I.
  all: unfold select_files; do 9 eexists; cbv zeta; repeat split; try reflexivity;
    unfold observed; cbn [map]; find_in.
Qed.

Lemma C3_witness :
  count_calls (@is_pickle_dump _) (trace (snd (snli_run snli_disk))) = 5.
Proof.
  destruct (@C3_five_pickles Sim "../data/snli" "../data/glove.txt"
              "../data/preprocessed" default_kwargs snli_disk
              (snd (snli_run snli_disk)))
    as (listing & d1 & t1 & d2 & t2 & d3 & t3 & m & w_dump & _ & _ & Hn & _).
  - vm_compute. reflexivity.
  - exact Hn.
Defined.

(** ** One vocabulary (C4) *)

(** C4, as stated, fails: in the run that the missing train file cuts
    short, the word dictionary is never built, although the environment
    keeps the word dictionary. *)
Lemma C4_vocabulary_not_built :
  fst (snli_run bare_disk) = inl (LibError "IsADirectoryError")
  /\ count_calls (@is_build_worddict _) (trace (snd (snli_run bare_disk))) = 0.
Proof. vm_compute. split; reflexivity. Qed.

Lemma sim_worddict_kept : worddict_kept Sim.
Proof.
  intros c d Hc. destruct c; try discriminate Hc; try reflexivity; cbn.
  - destruct (on_disk path d); reflexivity.
  - unfold sim_read. destruct (endswith path "/"); [reflexivity|].
    destruct (on_disk path d); reflexivity.
  - unfold sim_read. destruct (endswith embeddings_file "/"); [reflexivity|].
    destruct (on_disk embeddings_file d); reflexivity.
  - destruct (String.eqb mode "r"); [|reflexivity].
    destruct (on_disk path d); reflexivity.
Qed.

(** What a call that keeps the word dictionary leaves of it. *)
Lemma kept_step (E : Env) (Hkept : worddict_kept E) (c : Call (Obj E))
    (w w' : World E) (r : Err E + Resp c) :
  perform E c w = (r, w') -> sets_worddict c = false ->
  worddict_of E w' = worddict_of E w.
Proof. intros Hp Hc. rewrite <- (Hkept c w Hc), Hp. reflexivity. Qed.

Ltac kept_chain Hkept :=
  repeat match goal with
         | Hp : perform _ ?c ?w = (_, ?w') |- _ =>
             first [ pose proof (@kept_step _ Hkept _ _ _ _ Hp eq_refl) | idtac ];
             revert Hp
         end;
  intros.

(** C4, amended: in every run that returns, [build_worddict] is called
    once, on what [read_data] returned for the train file, and no
    [transform_to_indices] call comes before it; the script makes the three
    [transform_to_indices] calls on the same Preprocessor without touching
    its word dictionary in between, so that, in an environment whose other
    calls keep the word dictionary, the three calls find the word dictionary
    that [build_worddict] left, which is also the one pickled. *)
Theorem C4_one_vocabulary (E : Env) (inputdir embeddings_file targetdir : string)
    (kw : Kwargs) (w : World E) (st' : State E)
    (Hrun : exec (preprocess_SNLI_data E inputdir embeddings_file targetdir kw) w
            = (inr tt, st'))
    (Hkept : worddict_kept E) :
  exists (listing : list string) (train_data : Obj E) (w_build : World E),
    let worddict := worddict_of E (snd (perform E (BuildWorddict train_data) w_build)) in
    In (OsListdir inputdir, Returned (RNames listing)) (observed (trace st'))
    /\ In (ReadData (path_join inputdir (train_file (select_files listing))),
           Returned (RObj train_data)) (observed (trace st'))
    /\ filter (fun ev => is_build_worddict (ev_call ev)) (trace st')
       = [mkEvent w_build (BuildWorddict train_data) (Returned RNone)]
    /\ count_calls (@is_transform_to_indices _)
         (before_first (fun ev => is_build_worddict (ev_call ev)) (trace st')) = 0
    /\ count_calls (@is_transform_to_indices _) (trace st') = 3
    /\ (forall ev, In ev (trace st') ->
          is_transform_to_indices (ev_call ev) = true ->
          worddict_of E (ev_pre ev) = worddict)
    /\ In (PickleDump worddict (path_join targetdir "worddict.pkl"), Returned RNone)
         (observed (trace st')).
Proof.
  revert st' Hrun. generalize tt.
  apply runs_exec_returns. unfold preprocess_SNLI_data.
  walk; try exact I;
    match goal with
    | Hp : perform E (BuildWorddict ?d) ?wb = (_, ?wa),
      Hl : perform E (OsListdir inputdir) _ = (inr ?l, _) |- _ =>
        exists l, d, wb; cbv zeta; rewrite Hp; cbn [snd];
        kept_chain Hkept
    end;
    unfold select_files; repeat split; try reflexivity;
    try (unfold observed; cbn [map]; find_in);
    try (intros ev Hin Ht; cbn [In] in Hin;
         repeat (destruct Hin as [<- | Hin];
                 [first [discriminate Ht | cbn [ev_pre]; congruence] | ]);
         destruct Hin);
    cbv [observed map obs ev_call ev_out];
    repeat (first [ left; congruence | right ]).
Qed.

Lemma C4_witness :
  count_calls (@is_transform_to_indices _) (trace (snd (snli_run snli_disk))) = 3.
Proof.
  destruct (@C4_one_vocabulary Sim "../data/snli" "../data/glove.txt"
              "../data/preprocessed" default_kwargs snli_disk
              (snd (snli_run snli_disk)))
    as (listing & d1 & wb & _ & _ & _ & _ & Hn & _).
  - vm_compute. reflexivity.
  - exact sim_worddict_kept.
  - exact Hn.
Defined.

(** ** What the script writes (C10) *)

Lemma each_event_split {A} (P : list A -> A -> Prop) (tr pre0 : list A) :
  each_event P pre0 tr ->
  forall pre ev post, tr = pre ++ ev :: post -> P (pre0 ++ pre) ev.
Proof.
  revert pre0. induction tr as [|x tr IH]; intros pre0 H pre ev post Heq.
  - destruct pre; discriminate Heq.
  - destruct H as [Hx Htr]. destruct pre as [|y pre]; simpl in Heq.
    + injection Heq as -> _. now rewrite app_nil_r.
    + injection Heq as -> Heq.
      specialize (IH _ Htr pre ev post Heq).
      now rewrite <- app_assoc in IH.
Qed.

Lemma each_event_splits {A} (P : list A -> A -> Prop) (tr : list A) :
  each_event P [] tr ->
  forall pre ev post, tr = pre ++ ev :: post -> P pre ev.
Proof. intros H pre ev post Heq. exact (@each_event_split _ P tr [] H pre ev post Heq). Qed.

Lemma pickle_path_inside (targetdir name : string) :
  In name pickle_names ->
  path_join targetdir name =
  if String.eqb targetdir "" || endswith targetdir "/"
  then (targetdir ++ name)%string
  else (targetdir ++ "/" ++ name)%string.
Proof.
  intros H. unfold path_join.
  assert (Hrel : startswith "/" name = false).
  { cbn in H. repeat (destruct H as [<- | H]; [reflexivity|]). destruct H. }
  now rewrite Hrel.
Qed.

Lemma each_event_snoc {A} (P : list A -> A -> Prop) (tr pre : list A) (ev : A) :
  each_event P pre tr -> P (pre ++ tr) ev -> each_event P pre (tr ++ [ev]).
Proof.
  revert pre. induction tr as [|x tr IH]; intros pre Htr Hev; simpl.
  - rewrite app_nil_r in Hev. now split.
  - destruct Htr as [Hx Htr]. split; [exact Hx|].
    apply IH; [exact Htr|]. now rewrite <- app_assoc.
Qed.

(** A step that keeps [each_event P [] tr] for the trace so far: the event
    of a call is checked against the events before it when it is made. *)
Ltac step_inv check :=
  lazymatch goal with
  | Hinv : each_event ?P [] ?tr |- runs_to (call ?c) (mkState _ ?tr _) _ =>
      apply (@runs_call _ c); [intros ?e ?w ?Hp | intros ?r ?w ?Hp];
      lazymatch goal with
      | |- context [mkState _ (tr ++ [?ev]) _] =>
          let H := fresh "Hinv" in
          assert (H : each_event P [] (tr ++ [ev]))
            by (apply each_event_snoc; [exact Hinv | cbn [app to_ret]; check]);
          clear Hinv; cbn [app to_ret] in H |- *
      end; cbv beta iota
  | _ => step
  end.

Ltac walk_inv check := repeat step_inv check; cbn [trace steps world].

(** C10: in every run, the first thing asked is whether [targetdir]
    exists; when the answer is no, [os.makedirs(targetdir)] is the next
    call, and it is made at no other moment; every file opened, dumped to
    or closed is one of the five pickle files joined to [targetdir], opened
    for writing after the directory was found or made; no other call of the
    script writes.  The five paths are [targetdir], a separator unless it
    ends in one (or is empty), and the file name. *)
Theorem C10_writes_only_pickles (E : Env)
    (inputdir embeddings_file targetdir : string) (kw : Kwargs) (w : World E)
    (out : Exn (Err E) + unit) (st' : State E)
    (Hrun : exec (preprocess_SNLI_data E inputdir embeddings_file targetdir kw) w
            = (out, st')) :
  (forall pre ev post, trace st' = pre ++ ev :: post ->
     script_may targetdir (observed pre) (ev_call ev))
  /\ (forall rest,
        observed (trace st')
        = (OsPathExists targetdir, Returned (RBool false)) :: rest ->
        exists o rest', rest = (OsMakedirs targetdir, o) :: rest')
  /\ (forall name, In name pickle_names ->
        path_join targetdir name =
        if String.eqb targetdir "" || endswith targetdir "/"
        then (targetdir ++ name)%string
        else (targetdir ++ "/" ++ name)%string).
Proof.
  revert out st' Hrun. apply runs_exec. unfold preprocess_SNLI_data.
  assert (Hinv : each_event
            (fun pre (ev : Event E) => script_may targetdir (observed pre) (ev_call ev))
            [] []) by exact I.
  walk_inv ltac:(cbv [observed map obs ev_call ev_out script_may];
                 repeat lazymatch goal with
                        | |- _ /\ _ => split
                        | |- True => exact I
                        | |- _ = _ => reflexivity
                        | |- target_ready _ _ =>
                            first [ left; find_in | right; split; find_in ]
                        | |- In _ (pickle_paths _) =>
                            cbv [pickle_paths pickle_names map]; find_in
                        | |- In _ _ => find_in
                        end);
    (split; [match goal with H : each_event _ [] _ |- _ => exact (@each_event_splits _ _ _ H) end
            |split; [|intros name; apply pickle_path_inside]]).
  all: cbv [observed map obs ev_call ev_out]; intros rest H;
    first [ discriminate H
          | injection H as <-; do 2 eexists; reflexivity ].
Qed.

Lemma C10_witness :
  let tr := trace (snd (snli_run snli_disk)) in
  ev_call (nth 10 tr (sim_call snli_disk (Print [])))
  = PickleDump "worddict(data(../data/snli/snli_1.0_train.txt))"
      "../data/preprocessed/worddict.pkl"
  /\ script_may "../data/preprocessed" (observed (firstn 10 tr))
       (ev_call (nth 10 tr (sim_call snli_disk (Print [])))).
Proof.
  intros tr. split; [vm_compute; reflexivity|].
  destruct (@C10_writes_only_pickles Sim "../data/snli" "../data/glove.txt"
              "../data/preprocessed" default_kwargs snli_disk
              (fst (snli_run snli_disk)) (snd (snli_run snli_disk)))
    as [Hmay _].
  - vm_compute. reflexivity.
  - apply (Hmay (firstn 10 tr) (nth 10 tr (sim_call snli_disk (Print [])))
             (skipn 11 tr)).
    vm_compute. reflexivity.
Defined.

(** ** A missing dataset file (C8) *)

Lemma no_match_stays_empty (s : Slot) (listing : list string) :
  (forall file, In file listing -> fnmatch file (pattern_of s) = false) ->
  slot_value s (select_files listing) = "".
Proof.
  intros Hnone. unfold select_files.
  rewrite fold_scan_step_slot, (filter_none (matches s) listing Hnone).
  now destruct s.
Qed.

Lemma append_empty_r (s : string) : (s ++ "")%string = s.
Proof. induction s as [|c s IH]; simpl; [reflexivity | now rewrite IH]. Qed.

Lemma path_join_empty (dir : string) :
  path_join dir "" =
  if String.eqb dir "" || endswith dir "/" then dir else (dir ++ "/")%string.
Proof.
  unfold path_join. cbn [startswith String.prefix].
  destruct (String.eqb dir "" || endswith dir "/"); [apply append_empty_r | reflexivity].
Qed.

(** C8: when no entry of the listing matches the pattern of a slot, the
    variable of the slot is still the empty string after the loop, and the
    script has no check of its own: the [read_data] call of the slot is made
    on [os.path.join(inputdir, "")], unless a call of a collaborator raised
    before the script came to it; an exception that ends the run is always
    one that a call of the trace raised, never one of the script.  The path is [inputdir] itself, with a
    separator after it unless it is empty or ends in one. *)
Theorem C8_missing_file (E : Env) (inputdir embeddings_file targetdir : string)
    (kw : Kwargs) (w : World E) (out : Exn (Err E) + unit) (st' : State E)
    (Hrun : exec (preprocess_SNLI_data E inputdir embeddings_file targetdir kw) w
            = (out, st'))
    (s : Slot)
    (Hnone : forall file, In file (listed (trace st')) ->
               fnmatch file (pattern_of s) = false) :
  slot_value s (select_files (listed (trace st'))) = ""
  /\ (nth_error (read_data_calls (trace st')) (slot_index s)
        = Some (ReadData (path_join inputdir ""))
      \/ (nth_error (read_data_calls (trace st')) (slot_index s) = None
          /\ exists e, out = inl (LibError e)))
  /\ (out = inr tt ->
      nth_error (read_data_calls (trace st')) (slot_index s)
        = Some (ReadData (path_join inputdir "")))
  /\ (forall e, out = inl e ->
        exists e', e = LibError e' /\ In (Threw e') (outcomes (trace st')))
  /\ path_join inputdir "" =
     if String.eqb inputdir "" || endswith inputdir "/"
     then inputdir else (inputdir ++ "/")%string.
Proof.
  split; [exact (no_match_stays_empty s _ Hnone)|].
  assert (Hempty := no_match_stays_empty s _ Hnone). clear Hnone.
  revert out st' Hrun Hempty.
  match goal with
  | |- forall out st', exec ?m ?w0 = (out, st') -> @?Q out st' =>
      apply (@runs_exec _ _ m w0 Q)
  end.
  unfold preprocess_SNLI_data.
  walk; unfold listed, read_data_calls, calls, outcomes, select_files;
    cbn [flat_map map filter ev_out ev_call is_read_data app];
    rewrite ?app_nil_r; intros Hempty;
    (split; [|split; [|split; [|apply path_join_empty]]]);
    try (intros [=]; fail);
    try (intros e' [= <-]; eexists; split; [reflexivity | find_in]);
    try (intros ? [=]; fail);
    destruct s; cbn [slot_index nth_error slot_value] in *;
    try intros _;
    first [ rewrite Hempty; reflexivity
          | left; rewrite Hempty; reflexivity
          | right; split; [reflexivity | eexists; reflexivity] ].
Qed.

Lemma C8_witness :
  slot_value Train (select_files (listed (trace (snd (snli_run bare_disk))))) = ""
  /\ read_data_calls (trace (snd (snli_run bare_disk))) = [ReadData "../data/snli/"]
  /\ path_join "../data/snli" "" = "../data/snli/".
Proof.
  destruct (@C8_missing_file Sim "../data/snli" "../data/glove.txt"
              "../data/preprocessed" default_kwargs bare_disk
              (fst (snli_run bare_disk)) (snd (snli_run bare_disk)))
    with (s := Train) as (Hempty & _ & _ & _ & Hjoin).
  - vm_compute. reflexivity.
  - vm_compute. intros file [<- | [<- | []]]; reflexivity.
  - split; [exact Hempty|]. split; [vm_compute; reflexivity | exact Hjoin].
Defined.

(** ** The entry point (C5, C6) *)

Ltac check_order :=
  cbv [in_order config_read producer_returned result_of_last_method last_method
       observed map obs filter fst is_preprocessor_call last ev_call ev_out
       ev_pre firstn];
  repeat lazymatch goal with
         | |- _ /\ _ => split
         | |- True => exact I
         | |- exists _, _ => eexists
         | |- In _ _ => find_in
         | |- _ = _ => reflexivity
         | |- _ \/ _ =>
             first [ left; split; [reflexivity|]
                   | left; do 2 eexists; split; reflexivity
                   | right ]
         end.

(** Every run of the entry point, call by call. *)
Lemma main_run_facts (E : Env) (w : World E) (out : Exn (Err E) + unit)
    (st' : State E) :
  exec (main E) w = (out, st') ->
  (forall pre ev post, trace st' = pre ++ ev :: post -> in_order pre ev)
  /\ is_prefix_of (methods_called (trace st')) method_order = true
  /\ (exists o rest, observed (trace st') = (ParseArgs parser, o) :: rest)
  /\ count_calls (@is_parse_args _) (trace st') = 1.
Proof.
  revert out st'. apply runs_exec. unfold main.
  assert (Hinv : each_event (@in_order E) [] []) by exact I.
  repeat first [ step_inv check_order | progress unfold preprocess_SNLI_data ];
    cbn [trace steps world];
    (split; [match goal with
             | H : each_event _ [] _ |- _ => exact (@each_event_splits _ _ _ H)
             end|]);
    clear;
    (split; [vm_compute; reflexivity|]);
    (split; [do 2 eexists; reflexivity | reflexivity]).
Qed.

(** C5: in every execution of the entry point the calls come in this
    order.  [parse_args] is the first call; the configuration file is
    opened for reading right after it, [json.load] follows and the file is
    closed; every other call (the file system, the console, the
    Preprocessor, the pickling) is made only after these four have
    returned.  The calls on the Preprocessor follow the order of the script
    (constructor, read, build, transform, read, transform, read, transform,
    embeddings), of which an exception leaves a prefix.  A file is opened for
    writing only when the latest call on the Preprocessor is a
    [build_worddict], [transform_to_indices] or [build_embedding_matrix]
    call that has returned, and what is dumped into it is what that call
    produced: so no pickle file of a dataset is written, or even opened,
    before the transformation of the dataset has returned. *)
Theorem C5_order (E : Env) (w : World E) (out : Exn (Err E) + unit)
    (st' : State E) (Hrun : exec (main E) w = (out, st')) :
  (forall pre ev post, trace st' = pre ++ ev :: post -> in_order pre ev)
  /\ is_prefix_of (methods_called (trace st')) method_order = true.
Proof.
  destruct (main_run_facts _ Hrun) as (Horder & Hmethods & _).
  exact (conj Horder Hmethods).
Qed.

Lemma C5_witness :
  let tr := trace (snd (snli_main snli_disk)) in
  ev_call (nth 14 tr (sim_call snli_disk (Print [])))
  = PickleDump "worddict(data(../data/snli/snli_1.0_train.txt))"
      "../data/preprocessed/worddict.pkl"
  /\ in_order (firstn 14 tr) (nth 14 tr (sim_call snli_disk (Print [])))
  /\ methods_called tr = method_order.
Proof.
  intros tr. split; [vm_compute; reflexivity|].
  destruct (@C5_order Sim snli_disk (fst (snli_main snli_disk))
              (snd (snli_main snli_disk))) as [Horder _].
  - vm_compute. reflexivity.
  - split; [|vm_compute; reflexivity].
    apply (Horder (firstn 14 tr) (nth 14 tr (sim_call snli_disk (Print [])))
             (skipn 15 tr)).
    vm_compute. reflexivity.
Defined.

(** C6, as stated, fails: the parser that the script builds has the options
    [-h] and [--help] besides [--config] ([ArgumentParser] registers them
    unless [add_help=False] is passed, and the script does not pass it). *)
Lemma C6_help_option :
  In "-h" (parser_options parser)
  /\ In "--help" (parser_options parser)
  /\ "-h" <> "--config"
  /\ parser_options parser <> ["--config"].
Proof.
  repeat split; [now left | right; now left | discriminate | discriminate].
Qed.

Lemma call_name_listed {O : Type} (c : Call O) : In (call_name c) script_functions.
Proof. destruct c; cbn; tauto. Qed.

(** C6, amended: the script declares exactly one argument, the option
    [--config] with the default [../config/preprocessing.json]; the only
    other options of the parser are [-h] and [--help] that [argparse] adds,
    and there is no positional argument.  Every execution starts with the
    one [parse_args] call on this parser, and every call of the script is a
    call of the file system, the console, the Preprocessor, [pickle],
    [argparse] or [json]: none opens a network connection. *)
Theorem C6_command_line :
  actions parser =
    [ help_action;
      mkAction ["--config"] "config" (Some "../config/preprocessing.json")
        "Path to a configuration file for preprocessing" StoreAction ]
  /\ parser_options parser = ["-h"; "--help"; "--config"]
  /\ forallb (fun a => negb (is_positional a)) (actions parser) = true
  /\ (forall (O : Type) (c : Call O), In (call_name c) script_functions)
  /\ forall (E : Env) (w : World E) (out : Exn (Err E) + unit) (st' : State E),
       exec (main E) w = (out, st') ->
       (exists o rest, observed (trace st') = (ParseArgs parser, o) :: rest)
       /\ count_calls (@is_parse_args _) (trace st') = 1.
Proof.
  repeat split; try reflexivity.
  - intros O c. apply call_name_listed.
  - destruct (main_run_facts _ H) as (_ & _ & Hfirst & _). exact Hfirst.
  - destruct (main_run_facts _ H) as (_ & _ & _ & Hone). exact Hone.
Qed.

Lemma C6_witness :
  count_calls (@is_parse_args _) (trace (snd (snli_main snli_disk))) = 1.
Proof.
  destruct C6_command_line as (_ & _ & _ & _ & Hrun).
  destruct (Hrun Sim snli_disk (fst (snli_main snli_disk))
              (snd (snli_main snli_disk))) as [_ Hone].
  - vm_compute. reflexivity.
  - exact Hone.
Defined.

(** * Further properties of the script *)

(** ** The patterns and the selection loop *)

(** The three patterns select by ending: a name matches [*_train.txt]
    exactly when it ends in [_train.txt], and likewise for the dev and the
    test pattern; the match is case sensitive and looks at nothing else. *)
Theorem patterns_select_by_suffix (name : string) :
  (fnmatch name "*_train.txt" = true <-> exists stem, name = (stem ++ "_train.txt")%string)
  /\ (fnmatch name "*_dev.txt" = true <-> exists stem, name = (stem ++ "_dev.txt")%string)
  /\ (fnmatch name "*_test.txt" = true <-> exists stem, name = (stem ++ "_test.txt")%string).
Proof.
  repeat split; intros H.
  - apply (fnmatch_suffix Train) in H. exact H.
  - apply (fnmatch_suffix Train). exact H.
  - apply (fnmatch_suffix Dev) in H. exact H.
  - apply (fnmatch_suffix Dev). exact H.
  - apply (fnmatch_suffix Test) in H. exact H.
  - apply (fnmatch_suffix Test). exact H.
Qed.

(** No name matches two of the three patterns, so the order of the tests in
    the if/elif chain has no effect: an entry of the listing replaces the
    variable of a slot exactly when it matches the pattern of that slot, and
    leaves the two other variables as they were. *)
Theorem elif_chain_is_independent (st : Files) (file : string) (s : Slot) :
  (forall s', fnmatch file (pattern_of s) = true ->
              fnmatch file (pattern_of s') = true -> s = s')
  /\ slot_value s (scan_step st file)
     = if fnmatch file (pattern_of s) then file else slot_value s st.
Proof.
  split.
  - intros s' H H'. exact (patterns_disjoint s s' file H H').
  - exact (scan_step_slot s st file).
Qed.

Lemma last_filter_sat {A} (p : A -> bool) (l : list A) (d : A) :
  (exists x, In x l /\ p x = true) -> p (last (filter p l) d) = true.
Proof.
  revert d. induction l as [|a l IH]; intros d [x [Hin Hx]]; [destruct Hin|].
  simpl. destruct (p a) eqn:Hpa.
  - rewrite last_cons.
    destruct (last_filter_cases p l a) as [-> | [_ Hp]]; assumption.
  - apply IH. exists x. split; [|exact Hx].
    destruct Hin as [-> | Hin]; [congruence | exact Hin].
Qed.

(** After the loop, the variable of a slot is empty exactly when no entry
    of the listing matches the pattern of the slot; otherwise it holds an
    entry of the listing, and one that matches the pattern. *)
Theorem selected_file_is_listed (listing : list string) (s : Slot) :
  (slot_value s (select_files listing) = ""
   <-> forall file, In file listing -> fnmatch file (pattern_of s) = false)
  /\ (slot_value s (select_files listing) <> "" ->
      In (slot_value s (select_files listing)) listing
      /\ fnmatch (slot_value s (select_files listing)) (pattern_of s) = true).
Proof.
  assert (Hval : slot_value s (select_files listing)
                 = last (filter (matches s) listing) "").
  { unfold select_files. rewrite fold_scan_step_slot. now destruct s. }
  split; [split|].
  - intros Hempty file Hin.
    destruct (fnmatch file (pattern_of s)) eqn:Hm; [|reflexivity].
    assert (Hsat : matches s (last (filter (matches s) listing) "") = true)
      by (apply last_filter_sat; exists file; auto).
    rewrite <- Hval, Hempty in Hsat. unfold matches in Hsat.
    now rewrite fnmatch_empty in Hsat.
  - exact (no_match_stays_empty s listing).
  - intros Hne. rewrite Hval in *.
    destruct (last_filter_cases (matches s) listing "") as [Hd | H];
      [contradiction | exact H].
Qed.

Lemma filter_permutation {A} (p : A -> bool) (l l' : list A) :
  Permutation l l' -> Permutation (filter p l) (filter p l').
Proof.
  induction 1 as [|x l l' _ IH|x y l|l l' l'' _ IH1 _ IH2]; simpl.
  - constructor.
  - destruct (p x); [now constructor | exact IH].
  - destruct (p x), (p y); try reflexivity. constructor.
  - now transitivity (filter p l').
Qed.

Lemma short_permutation_eq {A} (l l' : list A) :
  length l <= 1 -> Permutation l l' -> l = l'.
Proof.
  intros Hlen Hperm. destruct l as [|a [|b l]]; simpl in Hlen; try lia.
  - now apply Permutation_nil in Hperm.
  - now apply Permutation_length_1_inv in Hperm.
Qed.

(** [os.listdir] returns the entries in arbitrary order.  When each
    pattern is matched by at most one entry, the order does not matter:
    two listings with the same entries select the same three files. *)
Theorem selection_ignores_order (listing listing' : list string)
    (Hperm : Permutation listing listing')
    (Hone : forall s, length (filter (fun file => fnmatch file (pattern_of s)) listing) <= 1) :
  select_files listing' = select_files listing.
Proof.
  assert (Hslot : forall s, slot_value s (select_files listing')
                            = slot_value s (select_files listing)).
  { intros s. unfold select_files. rewrite !fold_scan_step_slot.
    f_equal. symmetry. apply short_permutation_eq; [exact (Hone s)|].
    apply filter_permutation. exact Hperm. }
  pose proof (Hslot Train) as Ht. pose proof (Hslot Dev) as Hd.
  pose proof (Hslot Test) as Hs. simpl in Ht, Hd, Hs.
  destruct (select_files listing'), (select_files listing). simpl in *.
  congruence.
Qed.

Lemma selection_ignores_order_witness :
  select_files ["snli_test.txt"; "README.txt"; "snli_train.txt"; "snli_dev.txt"]
  = select_files ["snli_train.txt"; "snli_dev.txt"; "README.txt"; "snli_test.txt"].
Proof.
  apply selection_ignores_order.
  - apply Permutation_sym.
    apply (perm_trans (l' := ["snli_test.txt"; "snli_train.txt"; "README.txt"; "snli_dev.txt"]));
      [apply perm_skip, perm_swap|].
    apply (perm_trans (l' := ["snli_train.txt"; "snli_test.txt"; "README.txt"; "snli_dev.txt"]));
      [apply perm_swap|].
    apply perm_skip.
    apply (perm_trans (l' := ["snli_test.txt"; "snli_dev.txt"; "README.txt"]));
      [apply perm_skip, perm_swap|].
    apply (perm_trans (l' := ["snli_dev.txt"; "snli_test.txt"; "README.txt"]));
      [apply perm_swap|].
    apply perm_skip, perm_swap.
  - intros []; vm_compute; lia.
Defined.

(** ** Paths *)

Lemma append_cancel_l (a x y : string) :
  (a ++ x)%string = (a ++ y)%string -> x = y.
Proof.
  induction a as [|c a IH]; simpl; intros H; [exact H|].
  injection H as H. exact (IH H).
Qed.

Lemma append_assoc (a b c : string) :
  (a ++ (b ++ c))%string = ((a ++ b) ++ c)%string.
Proof. induction a as [|x a IH]; simpl; [reflexivity | now rewrite IH]. Qed.

Lemma append_length (a b : string) :
  String.length (a ++ b) = String.length a + String.length b.
Proof. induction a as [|c a IH]; simpl; [reflexivity | now rewrite IH]. Qed.

Lemma substring_all (b : string) : String.substring 0 (String.length b) b = b.
Proof. induction b as [|c b IH]; simpl; [reflexivity | now rewrite IH]. Qed.

Lemma substring_append (a b : string) :
  String.substring (String.length a) (String.length b) (a ++ b) = b.
Proof. induction a as [|c a IH]; simpl; [apply substring_all | exact IH]. Qed.

Lemma endswith_append (a b : string) : endswith (a ++ b) b = true.
Proof.
  unfold endswith. rewrite append_length.
  replace (String.length a + String.length b - String.length b)
    with (String.length a) by lia.
  rewrite substring_append, String.eqb_refl, andb_true_r.
  apply Nat.leb_le. lia.
Qed.

(** The path that [os.path.join] builds always ends in its second
    argument: whatever the directory, the file read is the one the loop
    selected, and the file written has the name the script gives. *)
Theorem path_join_keeps_name (dir name : string) :
  endswith (path_join dir name) name = true.
Proof.
  unfold path_join. destruct (startswith "/" name).
  - exact (endswith_append "" name).
  - destruct (String.eqb dir "" || endswith dir "/").
    + apply endswith_append.
    + rewrite append_assoc. apply endswith_append.
Qed.

(** The five pickle paths are pairwise distinct, whatever [targetdir] is:
    no output of a run overwrites another one. *)
Theorem pickle_paths_distinct (targetdir : string) : NoDup (pickle_paths targetdir).
Proof.
  set (pre := if String.eqb targetdir "" || endswith targetdir "/"
              then targetdir else (targetdir ++ "/")%string).
  assert (Hmap : pickle_paths targetdir = map (String.append pre) pickle_names).
  { unfold pickle_paths. apply map_ext_in. intros name Hin.
    rewrite (@pickle_path_inside targetdir name Hin). unfold pre.
    destruct (String.eqb targetdir "" || endswith targetdir "/"); [reflexivity|].
    apply append_assoc. }
  rewrite Hmap. apply Injective_map_NoDup.
  - intros x y H. exact (append_cancel_l pre x y H).
  - unfold pickle_names.
    repeat (constructor; [cbn; intros H; repeat (destruct H as [H|H]; [discriminate H|]); exact H|]).
    constructor.
Qed.

(** ** The configuration *)

Lemma getitem_error (E : Env) (cfg : PyVal) (key : string) (e : Exn (Err E)) :
  getitem E cfg key = inl e ->
  e = KeyError key \/ (e = TypeError /\ forall items, cfg <> PyDict items).
Proof.
  destruct cfg; simpl; intros H; try (right; split; [congruence | discriminate]).
  left. destruct (find _ items); congruence.
Qed.

Lemma normpath_val_ok (E : Env) (v : PyVal) (p : string) :
  normpath_val E v = inr p -> exists s, v = PyStr s /\ p = normpath s.
Proof. destruct v; simpl; intros H; try discriminate H. exists s. split; congruence. Qed.

Lemma normpath_val_error (E : Env) (v : PyVal) (e : Exn (Err E)) :
  normpath_val E v = inl e -> e = TypeError /\ forall s, v <> PyStr s.
Proof. destruct v; simpl; intros H; try discriminate H; split; congruence. Qed.

Ltac invert_paths :=
  repeat match goal with
         | H : normpath_val _ ?v = inr ?p |- _ =>
             let s := fresh "s" in
             destruct (normpath_val_ok _ _ H) as (s & ? & ?); clear H; subst v p
         end.

Ltac check_config :=
  cbv [loaded flat_map ev_out app passes_config ev_call];
  let Hin := fresh "Hin" in
  intros ? Hin; cbn [In] in Hin;
  first [ destruct Hin as [<- | []] | destruct Hin | exact I ];
  invert_paths;
  repeat lazymatch goal with
         | |- _ /\ _ => split
         | |- True => exact I
         | |- config_path_is _ _ _ _ => eexists; split; [eassumption | reflexivity]
         | |- _ = _ => eassumption
         end.

Ltac bad_key :=
  let key := fresh "key" in
  let Hk := fresh "Hk" in
  intros key Hk; injection Hk as ->;
  lazymatch goal with
  | Hv : normpath_val _ _ = inl _ |- _ =>
      destruct (normpath_val_error _ _ Hv) as [Hk _]; discriminate Hk
  | Hv : getitem _ _ _ = inl _ |- _ =>
      destruct (getitem_error _ _ _ Hv) as [Hk | [Hk _]];
      [injection Hk as -> | discriminate Hk];
      do 2 eexists;
      split; [reflexivity|];
      split; [exact Hv|];
      split; [cbv [config_keys]; find_in|];
      simpl before_first;
      repeat (apply Forall_cons; [eexists; eassumption|]); apply Forall_nil
  end.

Ltac bad_type :=
  let Hk := fresh "Hk" in
  let Hn := fresh "Hn" in
  intros Hk; injection Hk as ->;
  lazymatch goal with
  | Hv : normpath_val _ ?v = inl _, Hg : getitem _ _ ?k = inr ?v |- _ =>
      destruct (normpath_val_error _ _ Hv) as [_ Hn];
      do 2 eexists; split; [reflexivity|];
      right; exists k, v;
      split; [cbv [path_keys]; find_in | split; [exact Hg | exact Hn]]
  | Hv : getitem _ _ _ = inl _ |- _ =>
      destruct (getitem_error _ _ _ Hv) as [Hk | [_ Hn]];
      [discriminate Hk|];
      do 2 eexists; split; [reflexivity | left; exact Hn]
  end.

(** Every run of the entry point: what the configuration gives to the
    calls, how a bad configuration ends it, the files and the console. *)
Lemma main_config_facts (E : Env) (w : World E) (out : Exn (Err E) + unit)
    (st' : State E) :
  exec (main E) w = (out, st') ->
  (forall pre ev post, trace st' = pre ++ ev :: post ->
     forall cfg, In cfg (loaded pre) -> passes_config E cfg (ev_call ev))
  /\ (forall key, out = inl (KeyError key) ->
        exists ns cfg,
          observed (trace st') = config_calls ns cfg
          /\ getitem E cfg key = inl (KeyError key)
          /\ In key config_keys
          /\ Forall (fun k => exists v, getitem E cfg k = inr v)
               (before_first (String.eqb key) config_keys))
  /\ (out = inl TypeError ->
        exists ns cfg,
          observed (trace st') = config_calls ns cfg
          /\ ((forall items, cfg <> PyDict items)
              \/ exists k v, In k path_keys /\ getitem E cfg k = inr v
                             /\ forall s, v <> PyStr s))
  /\ closed_paths (trace st') = opened_paths (trace st')
  /\ (exists rest, expected_output = printed (trace st') ++ rest)
  /\ (out = inr tt -> printed (trace st') = expected_output).
Proof.
  revert out st'. apply runs_exec. unfold main.
  assert (Hinv : each_event
            (fun pre (ev : Event E) =>
               forall cfg, In cfg (loaded pre) -> passes_config E cfg (ev_call ev))
            [] []) by exact I.
  repeat first [ step_inv check_config | progress unfold preprocess_SNLI_data ];
    cbn [trace steps world];
    (split; [match goal with
             | H : each_event _ [] _ |- _ => exact (@each_event_splits _ _ _ H)
             end|]);
    match goal with H : each_event _ [] _ |- _ => clear H end.
  all: split; [|split; [|split; [|split]]].
  all: try solve [cbv [closed_paths opened_paths flat_map ev_call ev_out app]; reflexivity].
  all: try solve [cbv [printed flat_map ev_call app expected_output progress_of_set];
                  first [eexists; reflexivity | intros _; reflexivity | intros [=]]].
  all: try solve [intros; discriminate].
  all: first [bad_key | bad_type].
Qed.





(** The configuration reaches the calls unchanged: the target directory
    tested and made, the directory listed and the embeddings file are the
    normal forms of the strings under [target_dir], [data_dir] and
    [embeddings_file], and the Preprocessor is built with the values under
    [lowercase], [ignore_punctuation], [num_words], [stopwords],
    [labeldict], [bos] and [eos] as they are. *)
Theorem config_is_passed_on (E : Env) (w : World E) (out : Exn (Err E) + unit)
    (st' : State E) (pre post : list (Event E)) (ev : Event E) (cfg : PyVal)
    (Hrun : exec (main E) w = (out, st'))
    (Hsplit : trace st' = pre ++ ev :: post)
    (Hcfg : In cfg (loaded pre)) :
  passes_config E cfg (ev_call ev).
Proof.
  destruct (main_config_facts _ Hrun) as (Hpass & _).
  exact (Hpass pre ev post Hsplit cfg Hcfg).
Qed.

Lemma config_is_passed_on_witness :
  let tr := trace (snd (snli_main snli_disk)) in
  passes_config Sim snli_config (ev_call (nth 7 tr (sim_call snli_disk (Print [])))).
Proof.
  intros tr.
  apply (@config_is_passed_on Sim snli_disk (fst (snli_main snli_disk))
           (snd (snli_main snli_disk)) (firstn 7 tr) (skipn 8 tr)).
  - vm_compute. reflexivity.
  - vm_compute. reflexivity.
  - vm_compute. left. reflexivity.
Defined.

(** Every file that was opened is closed, in the same order, also when
    [json.load] or [pickle.dump] raises and in the runs that an exception
    ends; a file whose [open] raised is not closed. *)
Theorem files_are_closed (E : Env) (w : World E) (out : Exn (Err E) + unit)
    (st' : State E) (Hrun : exec (main E) w = (out, st')) :
  closed_paths (trace st') = opened_paths (trace st').
Proof.
  destruct (main_config_facts _ Hrun) as (_ & _ & _ & Hclosed & _). exact Hclosed.
Qed.

Lemma files_are_closed_witness :
  length (closed_paths (trace (snd (snli_main snli_disk)))) = 6.
Proof.
  rewrite (@files_are_closed Sim snli_disk (fst (snli_main snli_disk))
             (snd (snli_main snli_disk))).
  - vm_compute. reflexivity.
  - vm_compute. reflexivity.
Defined.



(** ** Partial runs *)

(** Every run of [preprocess_SNLI_data], by its files. *)
Lemma preprocess_progress (E : Env) (inputdir embeddings_file targetdir : string)
    (kw : Kwargs) (w : World E) (out : Exn (Err E) + unit) (st' : State E) :
  exec (preprocess_SNLI_data E inputdir embeddings_file targetdir kw) w = (out, st') ->
  (exists rest, pickle_paths targetdir = dumped_paths (trace st') ++ rest)
  /\ (out = inr tt -> dumped_paths (trace st') = pickle_paths targetdir)
  /\ (exists rest,
        selected_paths inputdir (listed (trace st')) = read_paths (trace st') ++ rest)
  /\ (out = inr tt ->
      read_paths (trace st') = selected_paths inputdir (listed (trace st'))).
Proof.
  revert out st'. apply runs_exec. unfold preprocess_SNLI_data.
  walk;
    unfold dumped_paths, read_paths, listed, selected_paths, pickle_paths,
      pickle_names;
    cbn [flat_map ev_call ev_out app map slot_value];
    rewrite ?app_nil_r; unfold select_files;
    (split; [eexists; reflexivity|]);
    (split; [first [intros _; reflexivity | intros [=]]|]);
    (split; [eexists; reflexivity|]);
    first [intros _; reflexivity | intros [=]].
Qed.

(** The outputs are written one after the other, in the order
    [worddict.pkl], [train_data.pkl], [dev_data.pkl], [test_data.pkl],
    [embeddings.pkl]: when a call raises, the pickle files dumped so far are
    the first ones of this list, and the later ones have not been dumped;
    a run that returns has dumped all five. *)
Theorem outputs_in_order (E : Env) (inputdir embeddings_file targetdir : string)
    (kw : Kwargs) (w : World E) (out : Exn (Err E) + unit) (st' : State E)
    (Hrun : exec (preprocess_SNLI_data E inputdir embeddings_file targetdir kw) w
            = (out, st')) :
  (exists rest, pickle_paths targetdir = dumped_paths (trace st') ++ rest)
  /\ (out = inr tt -> dumped_paths (trace st') = pickle_paths targetdir).
Proof.
  destruct (preprocess_progress _ _ _ _ _ Hrun) as (Hpre & Hall & _).
  exact (conj Hpre Hall).
Qed.

Lemma outputs_in_order_witness :
  dumped_paths (trace (snd (snli_run snli_disk))) = pickle_paths "../data/preprocessed"
  /\ dumped_paths (trace (snd (snli_run bare_disk))) = [].
Proof.
  destruct (@outputs_in_order Sim "../data/snli" "../data/glove.txt"
              "../data/preprocessed" default_kwargs snli_disk
              (fst (snli_run snli_disk)) (snd (snli_run snli_disk))) as [_ Hall].
  - vm_compute. reflexivity.
  - split; [apply Hall; vm_compute; reflexivity | vm_compute; reflexivity].
Defined.

(** The [read_data] calls are made on the train, the dev and the test file
    that the loop selected from the listing, each joined to [inputdir], in
    this order; a run that an exception ends has made the first of these
    calls only. *)
Theorem reads_follow_selection (E : Env) (inputdir embeddings_file targetdir : string)
    (kw : Kwargs) (w : World E) (out : Exn (Err E) + unit) (st' : State E)
    (Hrun : exec (preprocess_SNLI_data E inputdir embeddings_file targetdir kw) w
            = (out, st')) :
  (exists rest,
     selected_paths inputdir (listed (trace st')) = read_paths (trace st') ++ rest)
  /\ (out = inr tt ->
      read_paths (trace st') = selected_paths inputdir (listed (trace st'))).
Proof.
  destruct (preprocess_progress _ _ _ _ _ Hrun) as (_ & _ & Hpre & Hall).
  exact (conj Hpre Hall).
Qed.

Lemma reads_follow_selection_witness :
  read_paths (trace (snd (snli_run snli_disk)))
  = ["../data/snli/snli_1.0_train.txt"; "../data/snli/snli_1.0_dev.txt";
     "../data/snli/snli_1.0_test.txt"].
Proof.
  destruct (@reads_follow_selection Sim "../data/snli" "../data/glove.txt"
              "../data/preprocessed" default_kwargs snli_disk
              (fst (snli_run snli_disk)) (snd (snli_run snli_disk))) as [_ Hall].
  - vm_compute. reflexivity.
  - rewrite Hall by (vm_compute; reflexivity). vm_compute. reflexivity.
Defined.

(** ** Normal forms of paths *)

Lemma split_on_no_sep (sep : ascii) (l : list ascii) :
  Forall (fun w => ~ In sep w) (split_on sep l).
Proof.
  induction l as [|c l IH]; simpl.
  - constructor; [intros [] | constructor].
  - destruct (Ascii.eqb c sep) eqn:Hc.
    + constructor; [intros [] | exact IH].
    + destruct (split_on sep l) as [|w ws]; [repeat constructor; intros [H|[]]|].
      * apply Ascii.eqb_neq in Hc. congruence.
      * inversion IH as [|? ? Hw Hws]; subst. constructor; [|exact Hws].
        intros [H|H]; [|exact (Hw H)]. apply Ascii.eqb_neq in Hc. congruence.
Qed.

Lemma split_no_slash (p : string) :
  Forall (fun s => ~ In "/"%char (chars s)) (split p "/").
Proof.
  unfold split. cbn [chars list_ascii_of_string].
  apply Forall_map.
  eapply Forall_impl; [|apply split_on_no_sep].
  intros w Hw. unfold chars, str. now rewrite list_ascii_of_string_of_list_ascii.
Qed.

Lemma norm_step_components (k : nat) (acc : list string) (comp : string) :
  Forall component acc -> ~ In "/"%char (chars comp) ->
  Forall component (norm_step k acc comp).
Proof.
  intros Hacc Hcomp. unfold norm_step.
  destruct (String.eqb comp "") eqn:He; [exact Hacc|].
  destruct (String.eqb comp "."); [exact Hacc|]. cbn [orb].
  match goal with |- Forall _ (if ?b then _ else _) => destruct b end.
  - constructor; [|exact Hacc]. split; [|exact Hcomp].
    now apply String.eqb_neq.
  - destruct acc as [|top rest]; [constructor|]. now inversion Hacc.
Qed.

Lemma fold_norm_step_components (k : nat) (comps acc : list string) :
  Forall component acc ->
  Forall (fun s => ~ In "/"%char (chars s)) comps ->
  Forall component (fold_left (norm_step k) comps acc).
Proof.
  revert acc. induction comps as [|c comps IH]; intros acc Hacc Hcomps; [exact Hacc|].
  inversion Hcomps; subst. simpl. apply IH; [|assumption].
  now apply norm_step_components.
Qed.

Lemma endswith_slash (s : string) :
  endswith s "/" = true -> exists t, s = (t ++ "/")%string.
Proof.
  unfold endswith. cbn [String.length]. intros H.
  apply andb_true_iff in H as [_ H]. apply String.eqb_eq in H.
  induction s as [|c s IH]; [discriminate H|].
  cbn [String.length] in H. rewrite Nat.sub_succ, Nat.sub_0_r in H.
  destruct s as [|d s].
  - cbn in H. exists "". exact H.
  - cbn [String.length String.substring] in H.
    destruct IH as [t Ht].
    + cbn [String.length]. rewrite Nat.sub_succ, Nat.sub_0_r. exact H.
    + exists (String c t). cbn. now rewrite <- Ht.
Qed.

Lemma last_app_nonempty {A} (l1 l2 : list A) (d : A) :
  l2 <> [] -> last (l1 ++ l2) d = last l2 d.
Proof.
  intros Hne. induction l1 as [|a l1 IH]; [reflexivity|].
  simpl app. rewrite last_cons, <- IH.
  destruct (l1 ++ l2) eqn:Heq; [|now rewrite !last_cons].
  apply app_eq_nil in Heq as [_ Heq]. contradiction.
Qed.

Lemma component_last_char (s : string) :
  component s -> chars s <> [] /\ last (chars s) "a"%char <> "/"%char.
Proof.
  intros [Hne Hns]. assert (Hc : chars s <> []).
  { intros H. apply Hne. apply chars_inj. exact H. }
  split; [exact Hc|]. intros Hl. apply Hns. rewrite <- Hl.
  destruct (chars s) as [|a l]; [contradiction|].
  clear. revert a. induction l as [|b l IH]; intros a; [now left|].
  rewrite last_cons. right.
  destruct l as [|c l]; [now left|]. specialize (IH b).
  rewrite last_cons in IH. rewrite last_cons. exact IH.
Qed.

Lemma concat_last_char (comps : list string) :
  comps <> [] -> Forall component comps ->
  chars (String.concat "/" comps) <> []
  /\ last (chars (String.concat "/" comps)) "a"%char <> "/"%char.
Proof.
  induction comps as [|c comps IH]; intros Hne Hall; [contradiction|].
  inversion Hall as [|? ? Hc Hcs]; subst.
  destruct comps as [|c' comps].
  - cbn [String.concat]. now apply component_last_char.
  - destruct (IH ltac:(discriminate) Hcs) as [Hn Hl].
    change (String.concat "/" (c :: c' :: comps))
      with (c ++ "/" ++ String.concat "/" (c' :: comps))%string.
    rewrite !chars_app. split.
    + intros H. apply app_eq_nil in H as [_ H]. apply app_eq_nil in H as [_ H].
      contradiction.
    + rewrite app_assoc, last_app_nonempty by exact Hn. exact Hl.
Qed.

Lemma repeat_slash_cases (k : nat) :
  k <= 2 -> repeat_str k "/" = "" \/ repeat_str k "/" = "/" \/ repeat_str k "/" = "//".
Proof.
  intros H. destruct k as [|[|[|k]]]; cbn; auto. lia.
Qed.

(** [os.path.normpath] never returns the empty string, and what it returns
    ends in a separator only when it is the root, [/] or [//]. *)
Lemma normpath_shape (p : string) :
  normpath p <> ""
  /\ (endswith (normpath p) "/" = true -> normpath p = "/" \/ normpath p = "//").
Proof.
  unfold normpath. destruct (String.eqb p ""); [split; [discriminate | intros H; discriminate H]|].
  set (k := if startswith "/" p
            then if startswith "//" p && negb (startswith "///" p) then 2 else 1
            else 0).
  assert (Hk : k <= 2).
  { unfold k. destruct (startswith "/" p); [|lia].
    destruct (startswith "//" p && negb (startswith "///" p)); lia. }
  cbv zeta.
  set (comps := rev (fold_left (norm_step k) (split p "/") [])).
  assert (Hcomps : Forall component comps).
  { unfold comps. apply Forall_rev. apply fold_norm_step_components;
      [constructor | apply split_no_slash]. }
  destruct (String.eqb (repeat_str k "/" ++ String.concat "/" comps) "") eqn:He.
  - split; [discriminate | intros H; discriminate H].
  - split; [now apply String.eqb_neq|].
    intros Hend. destruct comps as [|c comps'] eqn:Hc.
    + cbn [String.concat] in *. rewrite append_empty_r in *.
      destruct (repeat_slash_cases Hk) as [H|H]; [|exact H].
      rewrite H in He. discriminate He.
    + exfalso. destruct (endswith_slash _ Hend) as [t Ht].
      destruct (@concat_last_char (c :: comps') ltac:(discriminate) Hcomps) as [Hn Hl].
      apply Hl. apply (f_equal chars) in Ht. rewrite !chars_app in Ht.
      assert (Hlast : last (chars (repeat_str k "/") ++ chars (String.concat "/" (c :: comps')))
                        "a"%char = "/"%char).
      { rewrite Ht. rewrite last_app_nonempty by discriminate. reflexivity. }
      rewrite last_app_nonempty in Hlast by exact Hn. exact Hlast.
Qed.

(** The entry point hands a normal form to [preprocess_SNLI_data], so the
    five files are joined to it with exactly one separator: each pickle
    path is the normal form of [target_dir], a [/] unless the normal form is
    the root, and the file name. *)
Theorem pickle_paths_of_normal_form (target_dir name : string) :
  In name pickle_names ->
  path_join (normpath target_dir) name =
  if String.eqb (normpath target_dir) "/" || String.eqb (normpath target_dir) "//"
  then (normpath target_dir ++ name)%string
  else (normpath target_dir ++ "/" ++ name)%string.
Proof.
  intros Hin. rewrite (pickle_path_inside (normpath target_dir) Hin).
  destruct (normpath_shape target_dir) as [Hne Hend].
  apply String.eqb_neq in Hne. rewrite Hne. cbn [orb].
  destruct (endswith (normpath target_dir) "/") eqn:He.
  - destruct (Hend eq_refl) as [-> | ->]; reflexivity.
  - destruct (String.eqb (normpath target_dir) "/") eqn:H1.
    + apply String.eqb_eq in H1. rewrite H1 in He. discriminate He.
    + destruct (String.eqb (normpath target_dir) "//") eqn:H2; [|reflexivity].
      apply String.eqb_eq in H2. rewrite H2 in He. discriminate He.
Qed.

Lemma pickle_paths_of_normal_form_witness :
  path_join (normpath "../data/preprocessed/") "worddict.pkl"
  = "../data/preprocessed/worddict.pkl"
  /\ path_join (normpath "//") "worddict.pkl" = "//worddict.pkl".
Proof.
  split; rewrite pickle_paths_of_normal_form by (now left); vm_compute; reflexivity.
Defined.
